(** * nova/virt/libvirt/firewall.py: security-group enforcement

    A shallow embedding of the two firewall drivers of
    [nova/virt/libvirt/firewall.py], [NWFilterFirewall] and
    [IptablesFirewallDriver], and the properties of their rule compilation
    and of their life-cycle operations.

    Python values are modelled as follows.
    - [int] is [Z]; ['%s' % n] is [str n].
    - [str] is [string]; a column that may hold [None] is [option string].
    - records read from the data store are Rocq records; they are read-only.
    - the data store, [netutils] and [FLAGS] are read through a [World],
      the snapshot a call sees.
    - mutable state (the chain tables, the tracked instances, the filter
      documents handed to libvirt, the log) is threaded through the
      state-and-exception monad [M]. *)

From Stdlib Require Import ZArith Ascii DecimalString DecimalZ.
From stdpp Require Import base gmap list strings.

Local Open Scope Z_scope.

(** ** Strings *)

(** The line feed of ["\n"]. *)
Definition LF : string := String (ascii_of_nat 10) "".

(** ['%s' % n] for an [int]. *)
Definition str (n : Z) : string := NilZero.string_of_int (Z.to_int n).

(** [sep.join(l)]. *)
Definition join (sep : string) (l : list string) : string := String.concat sep l.

(** [s.replace(c, '')] for a one-character [c]. *)
Fixpoint remove_char (c : ascii) (s : string) : string :=
  match s with
  | EmptyString => EmptyString
  | String a s' =>
      if Ascii.eqb a c then remove_char c s' else String a (remove_char c s')
  end.

(** ['%s' % v] for a value that may be [None]. *)
Definition str_opt (v : option string) : string :=
  match v with
  | Some s => s
  | None => "None"
  end.

(** Truthiness of a string-or-[None]: [Some s] with [s] non-empty, and the
    string itself in that case. *)
Definition truthy (v : option string) : option string :=
  match v with
  | Some (String a s) => Some (String a s)
  | _ => None
  end.

(** ** Data model *)

(** [instance['id']], [instance['name']], [instance['image_ref']]. *)
Record Instance := {
  instance_id : Z;
  instance_name : string;
  instance_image_ref : string
}.

(** [network['gateway']], [network['cidr']], [network['gateway_v6']],
    [network['cidr_v6']]; the v6 fields are [None] on a v4-only network. *)
Record Network := {
  gateway : string;
  cidr : string;
  gateway_v6 : option string;
  cidr_v6 : option string
}.

(** [mapping['mac']], and [ip['ip']] for the entries of [mapping['ips']] and
    [mapping['ip6s']]. *)
Record Mapping := {
  mac : string;
  ips : list string;
  ip6s : list string
}.

Abbreviation NetworkInfo := (list (Network * Mapping)).

(** A security group rule: [rule.protocol], [rule.cidr], [rule.from_port],
    [rule.to_port]. *)
Record Rule := {
  rule_protocol : string;
  rule_cidr : option string;
  from_port : Z;
  to_port : Z
}.

(** [security_group['id']] and [security_group.rules]. *)
Record SecurityGroup := {
  sg_id : Z;
  sg_rules : list Rule
}.

(** What one call reads from outside the module: [FLAGS], the [db] API,
    [netutils], and the answers of the hypervisor and of the packet filter. *)
Record World := {
  (* FLAGS *)
  use_ipv6 : bool;
  allow_project_net_traffic : bool;
  vpn_image_id : string;
  (* netutils *)
  get_network_info : Instance -> NetworkInfo;
  get_ip_version : string -> Z;
  get_net_and_mask : string -> string * string;
  get_net_and_prefixlen : string -> string * Z;
  (* db *)
  security_group_get_by_instance : Z -> list SecurityGroup;
  security_group_rule_get_by_security_group : Z -> list Rule;
  security_group_get : Z -> SecurityGroup;
  (* libvirt: does [nwfilterLookupByName name] find a filter, does
     [nwfilterDefineXML xml] accept the document *)
  nwfilter_found : string -> bool;
  nwfilter_accepted : string -> bool;
  (* does [iptables.apply()] succeed *)
  apply_accepted : bool
}.

(** The [network_info] argument: [None] or a list; [if not network_info]
    holds for [None] and for the empty list. *)
Definition or_get_network_info (w : World) (instance : Instance)
    (network_info : option NetworkInfo) : NetworkInfo :=
  match network_info with
  | Some (n :: l) => n :: l
  | _ => get_network_info w instance
  end.

(** ** Exceptions *)

Inductive exn :=
  | KeyError          (* a dict lookup on a missing key *)
  | libvirtError      (* raised by the libvirt connection *)
  | ApplyError.       (* raised by [iptables.apply()] *)

Inductive result (A : Type) :=
  | Ok (a : A)
  | Raise (e : exn).
Arguments Ok {A} a.
Arguments Raise {A} e.

Definition rbind {A B} (r : result A) (k : A -> result B) : result B :=
  match r with
  | Ok a => k a
  | Raise e => Raise e
  end.

(** ** Rule compilation for the chain tables
    ([IptablesFirewallDriver.instance_rules]) *)

(** The value of [icmp_type_arg]. *)
Definition icmp_type_arg (icmp_type icmp_code : Z) : option string :=
  if icmp_type =? -1 then None
  else
    Some (str icmp_type +:+
          (if negb (icmp_code =? -1) then "/" +:+ str icmp_code else "")).

(** The list [args] of one rule whose cidr is [c], of IP version [version]. *)
Definition rule_args (version : Z) (rule : Rule) (c : string) : list string :=
  let protocol :=
    if (version =? 6) && String.eqb (rule_protocol rule) "icmp"
    then "icmpv6" else rule_protocol rule in
  let args := ["-p"; protocol; "-s"; c] in
  let args :=
    if String.eqb (rule_protocol rule) "udp" || String.eqb (rule_protocol rule) "tcp"
    then
      if from_port rule =? to_port rule
      then args ++ ["--dport"; str (from_port rule)]
      else args ++ ["-m"; "multiport";
                    "--dports"; str (from_port rule) +:+ ":" +:+ str (to_port rule)]
    else if String.eqb (rule_protocol rule) "icmp"
    then
      match truthy (icmp_type_arg (from_port rule) (to_port rule)) with
      | Some arg =>
          if version =? 4 then args ++ ["-m"; "icmp"; "--icmp-type"; arg]
          else if version =? 6 then args ++ ["-m"; "icmp6"; "--icmpv6-type"; arg]
          else args
      | None => args
      end
    else args in
  args ++ ["-j ACCEPT"].

(** The body of [for rule in rules]: the pair is [(ipv4_rules, ipv6_rules)].
    [rules = ipv4_rules] aliases the list, so [rules += [...]] extends it. *)
Definition instance_rule_step (w : World)
    (acc : list string * list string) (rule : Rule) : list string * list string :=
  match truthy (rule_cidr rule) with
  | None => acc
  | Some c =>
      let version := get_ip_version w c in
      let directive := join " " (rule_args version rule c) in
      if version =? 4 then (acc.1 ++ [directive], acc.2)
      else (acc.1, acc.2 ++ [directive])
  end.

(** The body of [for security_group in security_groups]. *)
Definition instance_group_step (w : World)
    (acc : list string * list string) (security_group : SecurityGroup)
    : list string * list string :=
  fold_left (instance_rule_step w)
    (security_group_rule_get_by_security_group w (sg_id security_group)) acc.

(** The [ipv4_rules] built before the security groups are read. *)
Definition ipv4_prefix (w : World) (network_info : NetworkInfo) : list string :=
  ["-m state --state INVALID -j DROP";
   "-m state --state ESTABLISHED,RELATED -j ACCEPT"]
  ++ map (fun nm => "-s " +:+ gateway nm.1 +:+ " -p udp --sport 67 --dport 68 -j ACCEPT")
         network_info
  ++ (if allow_project_net_traffic w
      then map (fun nm => "-s " +:+ cidr nm.1 +:+ " -j ACCEPT") network_info
      else []).

(** The [ipv6_rules] built before the security groups are read. *)
Definition ipv6_prefix (w : World) (network_info : NetworkInfo) : list string :=
  ["-m state --state INVALID -j DROP";
   "-m state --state ESTABLISHED,RELATED -j ACCEPT"]
  ++ (if use_ipv6 w
      then
        map (fun nm => "-s " +:+ str_opt (gateway_v6 nm.1) +:+ "/128 -p icmpv6 -j ACCEPT")
            network_info
        ++ (if allow_project_net_traffic w
            then map (fun nm => "-s " +:+ str_opt (cidr_v6 nm.1) +:+ " -j ACCEPT")
                     network_info
            else [])
      else []).

(** [instance_rules(instance, network_info)]: the pair
    [(ipv4_rules, ipv6_rules)]. The [logging.info('%r', rule)] line, which
    prints an object address, is not modelled. *)
Definition instance_rules (w : World) (instance : Instance)
    (network_info : option NetworkInfo) : list string * list string :=
  let network_info := or_get_network_info w instance network_info in
  let security_groups := security_group_get_by_instance w (instance_id instance) in
  let acc :=
    fold_left (instance_group_step w) security_groups
      (ipv4_prefix w network_info, ipv6_prefix w network_info) in
  (acc.1 ++ ["-j $sg-fallback"], acc.2 ++ ["-j $sg-fallback"]).

(** ** State and effects *)

(** Modelled from the spec: the chain table of [nova.network.linux_net],
    a module that is not among the sources. It is the "table object
    supporting chain add/remove/rule add and atomic commit", with the
    operations [add_chain(name)], [remove_chain(name)] and
    [add_rule(chain, ruleSpec)]; a chain is "an ordered, named sequence of
    match-action rules". A table holds the set of its chain names and the
    ordered list of its rules, each filed under the chain it was added to. *)
Record IptablesTable := {
  chains : gset string;
  rules : list (string * string)
}.

(** Modelled from the spec: [add_chain(name)] of the chain table. *)
Definition add_chain (name : string) (t : IptablesTable) : IptablesTable :=
  {| chains := {[ name ]} ∪ chains t; rules := rules t |}.

(** Modelled from the spec: [remove_chain(name)] of the chain table; the
    rules of the chain go with it. *)
Definition remove_chain (name : string) (t : IptablesTable) : IptablesTable :=
  {| chains := chains t ∖ {[ name ]};
     rules := filter (fun r => r.1 ≠ name) (rules t) |}.

(** Modelled from the spec: [add_rule(chain, ruleSpec)] of the chain table;
    the rule goes after the rules the table has. *)
Definition add_rule (chain rule : string) (t : IptablesTable) : IptablesTable :=
  {| chains := chains t; rules := rules t ++ [(chain, rule)] |}.

(** The rules of one chain, in order. *)
Definition chain_rules (name : string) (t : IptablesTable) : list string :=
  (filter (fun r => r.1 = name) (rules t)).*2.

(** Modelled from the spec: [linux_net.iptables_manager], with "separate
    tables for v4/v6" ([ipv4['filter']] and [ipv6['filter']]) and [apply()],
    the "atomic commit of all staged changes since last apply": [applied]
    lists the committed pairs of tables, oldest first. *)
Record IptablesManager := {
  ipv4_filter : IptablesTable;
  ipv6_filter : IptablesTable;
  applied : list (IptablesTable * IptablesTable)
}.

(** The mutable state of one compute host: the shared iptables manager, the
    [instances] dict of the [IptablesFirewallDriver], the documents libvirt
    accepted through [nwfilterDefineXML] (oldest first), and the lines
    written to [LOG]. *)
Record State := {
  iptables : IptablesManager;
  instances : gmap Z Instance;
  nwfilters : list string;
  LOG : list string
}.

Definition M (A : Type) : Type := State -> result A * State.

Definition ret {A} (a : A) : M A := fun s => (Ok a, s).

Definition bind {A B} (m : M A) (k : A -> M B) : M B :=
  fun s =>
    match m s with
    | (Ok a, s') => k a s'
    | (Raise e, s') => (Raise e, s')
    end.

Definition raise {A} (e : exn) : M A := fun s => (Raise e, s).

Definition lift {A} (r : result A) : M A := fun s => (r, s).

(** [try: m except libvirt.libvirtError: handler]. *)
Definition try_except_libvirtError {A} (m : M A) (handler : M A) : M A :=
  fun s =>
    match m s with
    | (Raise libvirtError, s') => handler s'
    | r => r
    end.

Declare Scope M_scope.
Delimit Scope M_scope with M.
Notation "x <- c1 ;; c2" := (bind c1 (fun x => c2))
  (at level 100, c1 at next level, right associativity) : M_scope.
Notation "c1 ;; c2" := (bind c1 (fun _ => c2))
  (at level 100, right associativity) : M_scope.
Local Open Scope M_scope.

(** [for x in l: body(x)]. *)
Fixpoint for_each {A} (l : list A) (body : A -> M unit) : M unit :=
  match l with
  | [] => ret tt
  | x :: l' => body x ;; for_each l' body
  end.

(** A line written through [LOG]. *)
Definition log (line : string) : M unit :=
  fun s =>
    (Ok tt, {| iptables := iptables s; instances := instances s;
               nwfilters := nwfilters s; LOG := LOG s ++ [line] |}).

(** An update of the v4 and of the v6 [filter] table. *)
Definition on_ipv4 (f : IptablesTable -> IptablesTable) : M unit :=
  fun s =>
    (Ok tt, {| iptables := {| ipv4_filter := f (ipv4_filter (iptables s));
                              ipv6_filter := ipv6_filter (iptables s);
                              applied := applied (iptables s) |};
               instances := instances s; nwfilters := nwfilters s; LOG := LOG s |}).

Definition on_ipv6 (f : IptablesTable -> IptablesTable) : M unit :=
  fun s =>
    (Ok tt, {| iptables := {| ipv4_filter := ipv4_filter (iptables s);
                              ipv6_filter := f (ipv6_filter (iptables s));
                              applied := applied (iptables s) |};
               instances := instances s; nwfilters := nwfilters s; LOG := LOG s |}).

(** Modelled from the spec: [self.iptables.apply()], which commits the
    staged tables; a commit the packet filter rejects raises. *)
Definition apply (w : World) : M unit :=
  fun s =>
    if apply_accepted w then
      (Ok tt, {| iptables := {| ipv4_filter := ipv4_filter (iptables s);
                                ipv6_filter := ipv6_filter (iptables s);
                                applied := applied (iptables s)
                                           ++ [(ipv4_filter (iptables s),
                                                ipv6_filter (iptables s))] |};
                 instances := instances s; nwfilters := nwfilters s; LOG := LOG s |})
    else (Raise ApplyError, s).

(** [self._conn.nwfilterDefineXML(xml)], a call into libvirt: the document
    is defined, or the call raises [libvirtError]. *)
Definition nwfilterDefineXML (w : World) (xml : string) : M unit :=
  fun s =>
    if nwfilter_accepted w xml then
      (Ok tt, {| iptables := iptables s; instances := instances s;
                 nwfilters := nwfilters s ++ [xml]; LOG := LOG s |})
    else (Raise libvirtError, s).

(** [self._conn.nwfilterLookupByName(name)], a call into libvirt: it raises
    [libvirtError] when there is no such filter. *)
Definition nwfilterLookupByName (w : World) (name : string) : M unit :=
  if nwfilter_found w name then ret tt else raise libvirtError.

(** ** The filter-graph driver ([class NWFilterFirewall]) *)

Module NWFilterFirewall.

(** [_filter_container(name, filters)]. *)
Definition _filter_container (name : string) (filters : list string) : string :=
  "<filter name='" +:+ name +:+ "' chain='root'>"
  +:+ join "" (map (fun f => "<filterref filter='" +:+ f +:+ "'/>") filters)
  +:+ "</filter>".

(** [_define_filter(xml)] for a document ([callable(xml)] is false).
    [tpool.execute] runs the call in a native thread and waits for it. *)
Definition _define_filter (w : World) (xml : string) : M unit :=
  nwfilterDefineXML w xml.

(** [_define_filters(filter_name, filter_children)]. *)
Definition _define_filters (w : World) (filter_name : string)
    (filter_children : list string) : M unit :=
  _define_filter w (_filter_container filter_name filter_children).

(** [unfilter_instance(instance)]: [pass]. *)
Definition unfilter_instance (instance : Instance) : M unit := ret tt.

(** [_instance_filter_name(instance, nic_id=None)]. *)
Definition _instance_filter_name (instance : Instance) (nic_id : option string)
    : string :=
  match truthy nic_id with
  | None => "nova-instance-" +:+ instance_name instance
  | Some nic_id => "nova-instance-" +:+ instance_name instance +:+ "-" +:+ nic_id
  end.

(** The dict [v6protocol], read with [v6protocol[rule.protocol]]. *)
Definition v6protocol (protocol : string) : result string :=
  if String.eqb protocol "tcp" then Ok "tcp-ipv6"
  else if String.eqb protocol "udp" then Ok "udp-ipv6"
  else if String.eqb protocol "icmp" then Ok "icmpv6"
  else Raise KeyError.

(** What one turn of [for rule in security_group.rules] appends to
    [rule_xml]. The [LOG.info] line of the icmp branch is not modelled. *)
Definition rule_to_xml (w : World) (rule : Rule) : result string :=
  rbind
    (match truthy (rule_cidr rule) with
     | Some c =>
         let version := get_ip_version w c in
         rbind
           (if use_ipv6 w && (version =? 6) then
              let '(net, prefixlen) := get_net_and_prefixlen w c in
              rbind (v6protocol (rule_protocol rule)) (fun p =>
                Ok ("<" +:+ p +:+ " srcipaddr='" +:+ net
                    +:+ "' srcipmask='" +:+ str prefixlen +:+ "' "))
            else
              let '(net, mask) := get_net_and_mask w c in
              Ok ("<" +:+ rule_protocol rule +:+ " srcipaddr='" +:+ net
                  +:+ "' srcipmask='" +:+ mask +:+ "' "))
           (fun element =>
              let qualifiers :=
                if String.eqb (rule_protocol rule) "tcp"
                   || String.eqb (rule_protocol rule) "udp"
                then "dstportstart='" +:+ str (from_port rule)
                     +:+ "' dstportend='" +:+ str (to_port rule) +:+ "' "
                else if String.eqb (rule_protocol rule) "icmp"
                then (if negb (from_port rule =? -1)
                      then "type='" +:+ str (from_port rule) +:+ "' " else "")
                     +:+ (if negb (to_port rule =? -1)
                          then "code='" +:+ str (to_port rule) +:+ "' " else "")
                else "" in
              Ok (element +:+ qualifiers +:+ "/>" +:+ LF))
     | None => Ok ""
     end)
    (fun element =>
       Ok ("<rule action='accept' direction='in' priority='300'>"
           +:+ element +:+ "</rule>" +:+ LF)).

(** The loop [for rule in security_group.rules], from the [rule_xml]
    accumulated so far. *)
Fixpoint rules_to_xml (w : World) (rule_xml : string) (rules : list Rule)
    : result string :=
  match rules with
  | [] => Ok rule_xml
  | rule :: rules' =>
      rbind (rule_to_xml w rule) (fun x => rules_to_xml w (rule_xml +:+ x) rules')
  end.

(** [security_group_to_nwfilter_xml(security_group_id)]. *)
Definition security_group_to_nwfilter_xml (w : World) (security_group_id : Z)
    : result string :=
  let security_group := security_group_get w security_group_id in
  rbind (rules_to_xml w "" (sg_rules security_group)) (fun rule_xml =>
    Ok ("<filter name='nova-secgroup-" +:+ str security_group_id +:+ "' "
        +:+ (if use_ipv6 w then "chain='root'>" +:+ rule_xml +:+ "</filter>"
             else "chain='ipv4'>" +:+ rule_xml +:+ "</filter>"))).

(** [refresh_security_group_rules(security_group_id)]. *)
Definition refresh_security_group_rules (w : World) (security_group_id : Z)
    : M unit :=
  xml <- lift (security_group_to_nwfilter_xml w security_group_id) ;;
  _define_filter w xml.

(** [_create_network_filters(instance, network_info,
    instance_secgroup_filter_name)]. *)
Definition _create_network_filters (w : World) (instance : Instance)
    (network_info : NetworkInfo) (instance_secgroup_filter_name : string)
    : list (string * list string) :=
  let base_filter :=
    if String.eqb (instance_image_ref instance) (vpn_image_id w)
    then "nova-vpn" else "nova-base" in
  map (fun nm =>
         let nic_id := remove_char ":" (mac nm.2) in
         let instance_filter_name := _instance_filter_name instance (Some nic_id) in
         let instance_filter_children :=
           [base_filter; instance_secgroup_filter_name]
           ++ (if allow_project_net_traffic w
               then ["nova-project"]
                    ++ (if use_ipv6 w then ["nova-project-v6"] else [])
               else []) in
         (instance_filter_name, instance_filter_children))
      network_info.

(** The loop [for security_group in db.security_group_get_by_instance(...)]
    of [prepare_instance_filter], from the children collected so far. *)
Fixpoint secgroup_loop (w : World) (instance_secgroup_filter_name : string)
    (instance_secgroup_filter_children : list string)
    (security_groups : list SecurityGroup) : M unit :=
  match security_groups with
  | [] => ret tt
  | security_group :: rest =>
      refresh_security_group_rules w (sg_id security_group) ;;
      let children :=
        instance_secgroup_filter_children
        ++ ["nova-secgroup-" +:+ str (sg_id security_group)] in
      _define_filter w (_filter_container instance_secgroup_filter_name children) ;;
      secgroup_loop w instance_secgroup_filter_name children rest
  end.

(** [prepare_instance_filter(instance, network_info=None)]. *)
Definition prepare_instance_filter (w : World) (instance : Instance)
    (network_info : option NetworkInfo) : M unit :=
  let network_info := or_get_network_info w instance network_info in
  let instance_secgroup_filter_name :=
    _instance_filter_name instance None +:+ "-secgroup" in
  let instance_secgroup_filter_children :=
    ["nova-base-ipv4"; "nova-base-ipv6"; "nova-allow-dhcp-server"]
    ++ (if use_ipv6 w then
          match filter (fun nm => is_Some (truthy (gateway_v6 nm.1))) network_info with
          | [] => []
          | _ :: _ => ["nova-allow-ra-server"]
          end
        else []) in
  secgroup_loop w instance_secgroup_filter_name instance_secgroup_filter_children
    (security_group_get_by_instance w (instance_id instance)) ;;
  let network_filters :=
    _create_network_filters w instance network_info instance_secgroup_filter_name in
  for_each network_filters (fun nc => _define_filters w nc.1 nc.2).

(** The loop of [instance_filter_exists] over the NICs: [Ok false] is the
    [return False] of the handler, [Ok true] the [return True] after the
    loop. *)
Fixpoint filter_exists_loop (w : World) (instance : Instance)
    (network_info : NetworkInfo) : M bool :=
  match network_info with
  | [] => ret true
  | (network, mapping) :: rest =>
      let nic_id := remove_char ":" (mac mapping) in
      let instance_filter_name := _instance_filter_name instance (Some nic_id) in
      found <- try_except_libvirtError
                 (nwfilterLookupByName w instance_filter_name ;; ret true)
                 (let name := instance_name instance in
                  log ("The nwfilter(" +:+ instance_filter_name +:+ ") for"
                       +:+ name +:+ " is not found.") ;;
                  ret false) ;;
      if found then filter_exists_loop w instance rest else ret false
  end.

(** [instance_filter_exists(instance)]. *)
Definition instance_filter_exists (w : World) (instance : Instance) : M bool :=
  filter_exists_loop w instance (get_network_info w instance).

End NWFilterFirewall.

(** ** The chain-tree driver ([class IptablesFirewallDriver]) *)

Module IptablesFirewallDriver.

(** [self.instances = d]. *)
Definition set_instances (d : gmap Z Instance) : M unit :=
  fun s =>
    (Ok tt, {| iptables := iptables s; instances := d;
               nwfilters := nwfilters s; LOG := LOG s |}).

(** [self.instances.pop(key, None)]. *)
Definition instances_pop (key : Z) : M (option Instance) :=
  fun s =>
    (Ok (instances s !! key),
     {| iptables := iptables s; instances := delete key (instances s);
        nwfilters := nwfilters s; LOG := LOG s |}).

(** [self.instances[key] = instance]. *)
Definition instances_setitem (key : Z) (instance : Instance) : M unit :=
  fun s =>
    (Ok tt, {| iptables := iptables s; instances := <[key := instance]> (instances s);
               nwfilters := nwfilters s; LOG := LOG s |}).

(** [self.instances.values()]; the order is the one of the map, as
    arbitrary as the one of a Python dict. *)
Definition instances_values : M (list Instance) :=
  fun s => (Ok (map_to_list (instances s)).*2, s).

(** [__init__]: the driver starts with no tracked instance and stages the
    shared fallback chain in both tables. *)
Definition __init__ : M unit :=
  set_instances ∅ ;;
  on_ipv4 (add_chain "sg-fallback") ;;
  on_ipv4 (add_rule "sg-fallback" "-j DROP") ;;
  on_ipv6 (add_chain "sg-fallback") ;;
  on_ipv6 (add_rule "sg-fallback" "-j DROP").

(** [_instance_chain_name(instance)]. *)
Definition _instance_chain_name (instance : Instance) : string :=
  "inst-" +:+ str (instance_id instance).

(** [_security_group_chain_name(security_group_id)]. *)
Definition _security_group_chain_name (security_group_id : Z) : string :=
  "nova-sg-" +:+ str security_group_id.

(** [_create_filter(ips, chain_name)]. *)
Definition _create_filter (ips : list string) (chain_name : string) : list string :=
  map (fun ip => "-d " +:+ ip +:+ " -j $" +:+ chain_name) ips.

(** [_filters_for_instance(chain_name, network_info)]. *)
Definition _filters_for_instance (w : World) (chain_name : string)
    (network_info : NetworkInfo) : list string * list string :=
  let ips_v4 := flat_map (fun nm => ips nm.2) network_info in
  let ipv4_rules := _create_filter ips_v4 chain_name in
  let ipv6_rules :=
    if use_ipv6 w
    then _create_filter (flat_map (fun nm => ip6s nm.2) network_info) chain_name
    else [] in
  (ipv4_rules, ipv6_rules).

(** [_add_filters(chain_name, ipv4_rules, ipv6_rules)]. *)
Definition _add_filters (w : World) (chain_name : string)
    (ipv4_rules ipv6_rules : list string) : M unit :=
  for_each ipv4_rules (fun rule => on_ipv4 (add_rule chain_name rule)) ;;
  if use_ipv6 w
  then for_each ipv6_rules (fun rule => on_ipv6 (add_rule chain_name rule))
  else ret tt.

(** [add_filters_for_instance(instance, network_info)]; every caller passes
    the list of attachments. *)
Definition add_filters_for_instance (w : World) (instance : Instance)
    (network_info : NetworkInfo) : M unit :=
  let chain_name := _instance_chain_name instance in
  (if use_ipv6 w then on_ipv6 (add_chain chain_name) else ret tt) ;;
  on_ipv4 (add_chain chain_name) ;;
  let '(ipv4_rules, ipv6_rules) := _filters_for_instance w chain_name network_info in
  _add_filters w "local" ipv4_rules ipv6_rules ;;
  let '(ipv4_rules, ipv6_rules) := instance_rules w instance (Some network_info) in
  _add_filters w chain_name ipv4_rules ipv6_rules.

(** [remove_filters_for_instance(instance)]. *)
Definition remove_filters_for_instance (w : World) (instance : Instance) : M unit :=
  let chain_name := _instance_chain_name instance in
  on_ipv4 (remove_chain chain_name) ;;
  if use_ipv6 w then on_ipv6 (remove_chain chain_name) else ret tt.

(** [unfilter_instance(instance)]. A tracked value is an instance record,
    which is truthy. *)
Definition unfilter_instance (w : World) (instance : Instance) : M unit :=
  popped <- instances_pop (instance_id instance) ;;
  match popped with
  | Some _ =>
      remove_filters_for_instance w instance ;;
      apply w
  | None =>
      log ("Attempted to unfilter instance " +:+ str (instance_id instance)
           +:+ " which is not filtered")
  end.

(** [prepare_instance_filter(instance, network_info=None)]. *)
Definition prepare_instance_filter (w : World) (instance : Instance)
    (network_info : option NetworkInfo) : M unit :=
  let network_info := or_get_network_info w instance network_info in
  instances_setitem (instance_id instance) instance ;;
  add_filters_for_instance w instance network_info ;;
  apply w.

(** The loop [for instance in self.instances.values()] of
    [do_refresh_security_group_rules]; [network_info] is the local variable
    of that name, which the loop body assigns. *)
Fixpoint do_refresh_loop (w : World) (tracked : list Instance)
    (network_info : option NetworkInfo) : M unit :=
  match tracked with
  | [] => ret tt
  | instance :: rest =>
      remove_filters_for_instance w instance ;;
      let network_info := or_get_network_info w instance network_info in
      add_filters_for_instance w instance network_info ;;
      do_refresh_loop w rest (Some network_info)
  end.

(** [do_refresh_security_group_rules(security_group, network_info=None)].
    The decorator [utils.synchronized('iptables', external=True)] holds a
    lock for the duration of this call; one caller at a time is modelled. *)
Definition do_refresh_security_group_rules (w : World) (security_group : Z)
    (network_info : option NetworkInfo) : M unit :=
  tracked <- instances_values ;;
  do_refresh_loop w tracked network_info.

(** [refresh_security_group_rules(security_group, network_info=None)]. *)
Definition refresh_security_group_rules (w : World) (security_group : Z)
    (network_info : option NetworkInfo) : M unit :=
  do_refresh_security_group_rules w security_group network_info ;;
  apply w.

(** [refresh_security_group_members(security_group)]: [pass]. *)
Definition refresh_security_group_members (security_group : Z) : M unit := ret tt.

(** [instance_filter_exists(instance)]. *)
Definition instance_filter_exists (w : World) (instance : Instance) : M bool :=
  NWFilterFirewall.instance_filter_exists w instance.

End IptablesFirewallDriver.

(** ** Vocabulary of the properties *)

(** The state an operation leaves, whether it returned or raised. *)
Definition exec {A} (m : M A) (s : State) : State := (m s).2.

(** The directive [instance_rules] compiles a rule with cidr [c] to. *)
Definition directive_of (w : World) (rule : Rule) (c : string) : string :=
  join " " (rule_args (get_ip_version w c) rule c).

(** The list, of the pair [(ipv4_rules, ipv6_rules)], that takes the rules
    of IP version [version]. *)
Definition compiled_into (version : Z) (lists : list string * list string)
    : list string :=
  if version =? 4 then lists.1 else lists.2.

(** The line [IptablesFirewallDriver.unfilter_instance] logs. *)
Definition not_filtered_line (instance : Instance) : string :=
  "Attempted to unfilter instance " +:+ str (instance_id instance)
  +:+ " which is not filtered".

(** The line [NWFilterFirewall.instance_filter_exists] logs. *)
Definition not_found_line (instance : Instance) (instance_filter_name : string)
    : string :=
  "The nwfilter(" +:+ instance_filter_name +:+ ") for"
  +:+ instance_name instance +:+ " is not found.".

(** The name of the filter of one NIC of an instance. *)
Definition nic_filter_name (instance : Instance) (nm : Network * Mapping) : string :=
  NWFilterFirewall._instance_filter_name instance (Some (remove_char ":" (mac nm.2))).

(** A MAC address: hexadecimal digits and colons. *)
Definition is_mac_char (a : ascii) : bool :=
  let n := nat_of_ascii a in
  ((48 <=? n) && (n <=? 58) || (65 <=? n) && (n <=? 70)
   || (97 <=? n) && (n <=? 102))%nat.

(** [is_mac s]: every character of [s] is one of a MAC address. *)
Fixpoint is_mac (s : string) : bool :=
  match s with
  | EmptyString => true
  | String a s' => is_mac_char a && is_mac s'
  end.

(** [needle in s]. *)
Definition contains (needle s : string) : bool :=
  match String.index 0 needle s with
  | Some _ => true
  | None => false
  end.

(** *** The tables a refresh stages *)

(** [staged t4 t6 s]: the state [s] with its staged tables replaced. *)
Definition staged (t4 t6 : IptablesTable) (s : State) : State :=
  {| iptables := {| ipv4_filter := t4; ipv6_filter := t6;
                    applied := applied (iptables s) |};
     instances := instances s; nwfilters := nwfilters s; LOG := LOG s |}.

(** The table after [add_rule(chain, rule)] for each rule of a list. *)
Definition add_rules (chain : string) (rs : list string) (t : IptablesTable)
    : IptablesTable :=
  fold_left (fun t rule => add_rule chain rule t) rs t.

(** The value of the variable [network_info] of
    [do_refresh_security_group_rules] after the loop went over [tracked]. *)
Definition refresh_network_info (w : World) (tracked : list Instance)
    (network_info : option NetworkInfo) : option NetworkInfo :=
  fold_left (fun ni instance => Some (or_get_network_info w instance ni))
    tracked network_info.

(** The v4 table [add_filters_for_instance] stages. *)
Definition add_filters_ipv4 (w : World) (instance : Instance)
    (network_info : NetworkInfo) (t : IptablesTable) : IptablesTable :=
  let chain_name := IptablesFirewallDriver._instance_chain_name instance in
  add_rules chain_name (instance_rules w instance (Some network_info)).1
    (add_rules "local"
       (IptablesFirewallDriver._filters_for_instance w chain_name network_info).1
       (add_chain chain_name t)).

(** The v6 table [add_filters_for_instance] stages. *)
Definition add_filters_ipv6 (w : World) (instance : Instance)
    (network_info : NetworkInfo) (t : IptablesTable) : IptablesTable :=
  let chain_name := IptablesFirewallDriver._instance_chain_name instance in
  if use_ipv6 w then
    add_rules chain_name (instance_rules w instance (Some network_info)).2
      (add_rules "local"
         (IptablesFirewallDriver._filters_for_instance w chain_name network_info).2
         (add_chain chain_name t))
  else t.

(** The v6 table [remove_filters_for_instance] stages. *)
Definition remove_filters_ipv6 (w : World) (instance : Instance)
    (t : IptablesTable) : IptablesTable :=
  if use_ipv6 w
  then remove_chain (IptablesFirewallDriver._instance_chain_name instance) t
  else t.

(** The tables the loop of [do_refresh_security_group_rules] stages. *)
Fixpoint refresh_tables (w : World) (tracked : list Instance)
    (network_info : option NetworkInfo) (t : IptablesTable * IptablesTable)
    : IptablesTable * IptablesTable :=
  match tracked with
  | [] => t
  | instance :: rest =>
      let chain_name := IptablesFirewallDriver._instance_chain_name instance in
      let network_info := or_get_network_info w instance network_info in
      refresh_tables w rest (Some network_info)
        (add_filters_ipv4 w instance network_info (remove_chain chain_name t.1),
         add_filters_ipv6 w instance network_info (remove_filters_ipv6 w instance t.2))
  end.

(** ** Example data *)

Module Example.

Definition network_a : Network :=
  {| gateway := "10.0.0.1"; cidr := "10.0.0.0/24";
     gateway_v6 := None; cidr_v6 := None |}.

Definition network_b : Network :=
  {| gateway := "10.0.1.1"; cidr := "10.0.1.0/24";
     gateway_v6 := None; cidr_v6 := None |}.

Definition mapping_a : Mapping :=
  {| mac := "aa:bb:cc:dd:ee:ff"; ips := ["10.0.0.5"]; ip6s := [] |}.

Definition mapping_b : Mapping :=
  {| mac := "aa:bb:cc:dd:ee:00"; ips := ["10.0.1.5"]; ip6s := [] |}.

Definition instance_1 : Instance :=
  {| instance_id := 1; instance_name := "instance-00000001";
     instance_image_ref := "7" |}.

Definition instance_2 : Instance :=
  {| instance_id := 2; instance_name := "instance-00000002";
     instance_image_ref := "7" |}.

(** tcp port 22 from anywhere. *)
Definition rule_ssh : Rule :=
  {| rule_protocol := "tcp"; rule_cidr := Some "0.0.0.0/0";
     from_port := 22; to_port := 22 |}.

(** udp ports 5000 to 5010 from anywhere. *)
Definition rule_udp_range : Rule :=
  {| rule_protocol := "udp"; rule_cidr := Some "0.0.0.0/0";
     from_port := 5000; to_port := 5010 |}.

(** icmp echo request, any code. *)
Definition rule_ping : Rule :=
  {| rule_protocol := "icmp"; rule_cidr := Some "0.0.0.0/0";
     from_port := 8; to_port := -1 |}.

(** icmp with any type and code 5. *)
Definition rule_icmp_code_only : Rule :=
  {| rule_protocol := "icmp"; rule_cidr := Some "0.0.0.0/0";
     from_port := -1; to_port := 5 |}.

(** A rule that names no cidr. *)
Definition rule_no_cidr : Rule :=
  {| rule_protocol := "tcp"; rule_cidr := None;
     from_port := 22; to_port := 22 |}.

(** A v4-only host with the two instances above, instance 1 attached to
    [network_a] and instance 2 to [network_b], and one security group, 1,
    that holds [group_rules] and is attached to every instance. libvirt
    knows no filter yet, and accepts every definition and commit. *)
Definition world (group_rules : list Rule) : World :=
  {| use_ipv6 := false;
     allow_project_net_traffic := false;
     vpn_image_id := "0";
     get_network_info := fun instance =>
       if instance_id instance =? 1 then [(network_a, mapping_a)]
       else [(network_b, mapping_b)];
     get_ip_version := fun _ => 4;
     get_net_and_mask := fun _ => ("0.0.0.0", "0.0.0.0");
     get_net_and_prefixlen := fun _ => ("::", 0);
     security_group_get_by_instance := fun _ =>
       [{| sg_id := 1; sg_rules := group_rules |}];
     security_group_rule_get_by_security_group := fun _ => group_rules;
     security_group_get := fun _ => {| sg_id := 1; sg_rules := group_rules |};
     nwfilter_found := fun _ => false;
     nwfilter_accepted := fun _ => true;
     apply_accepted := true |}.

(** The same host when no security group is attached to any instance. *)
Definition world_without_groups : World :=
  {| use_ipv6 := false;
     allow_project_net_traffic := false;
     vpn_image_id := "0";
     get_network_info := fun instance =>
       if instance_id instance =? 1 then [(network_a, mapping_a)]
       else [(network_b, mapping_b)];
     get_ip_version := fun _ => 4;
     get_net_and_mask := fun _ => ("0.0.0.0", "0.0.0.0");
     get_net_and_prefixlen := fun _ => ("::", 0);
     security_group_get_by_instance := fun _ => [];
     security_group_rule_get_by_security_group := fun _ => [];
     security_group_get := fun _ => {| sg_id := 1; sg_rules := [] |};
     nwfilter_found := fun _ => false;
     nwfilter_accepted := fun _ => true;
     apply_accepted := true |}.

(** A host on which nothing has been staged, tracked, defined or logged. *)
Definition fresh : State :=
  {| iptables := {| ipv4_filter := {| chains := ∅; rules := [] |};
                    ipv6_filter := {| chains := ∅; rules := [] |};
                    applied := [] |};
     instances := ∅;
     nwfilters := [];
     LOG := [] |}.

(** The host after the driver was built and instance 1 prepared. *)
Definition one_prepared (w : World) : State :=
  exec (IptablesFirewallDriver.prepare_instance_filter w instance_1 None)
    (exec IptablesFirewallDriver.__init__ fresh).

(** The host after the driver was built and both instances prepared. *)
Definition two_prepared (w : World) : State :=
  exec (IptablesFirewallDriver.prepare_instance_filter w instance_2 None)
    (one_prepared w).

End Example.

(** * More of the code *)

(** ** Basic filtering ([NWFilterFirewall.setup_basic_filtering]) *)

Module NWFilterBasic.

(** The attributes of a [NWFilterFirewall] object. *)
Record Self := {
  static_filters_configured : bool;
  handle_security_groups : bool
}.

(** [NWFilterFirewall.__init__]. *)
Definition __init__ : Self :=
  {| static_filters_configured := false; handle_security_groups := false |}.

(** [n] spaces. *)
Fixpoint spaces (n : nat) : string :=
  match n with
  | O => ""
  | S n' => String " " (spaces n')
  end.

(** A string literal that runs over several lines, given line by line as
    the number of leading spaces and the text after them. *)
Definition lines (l : list (nat * string)) : string :=
  join LF (map (fun nt => spaces nt.1 +:+ nt.2) l).

(** [nova_dhcp_filter()]. *)
Definition nova_dhcp_filter (_ : unit) : string :=
  lines [(0, "<filter name='nova-allow-dhcp-server' chain='ipv4'>");
         (20, "<uuid>891e4787-e5c0-d59b-cbd6-41bc3c6b36fc</uuid>");
         (20, "<rule action='accept' direction='out'");
         (26, "priority='100'>");
         (22, "<udp srcipaddr='0.0.0.0'");
         (27, "dstipaddr='255.255.255.255'");
         (27, "srcportstart='68'");
         (27, "dstportstart='67'/>");
         (20, "</rule>");
         (20, "<rule action='accept' direction='in'");
         (26, "priority='100'>");
         (22, "<udp srcipaddr='$DHCPSERVER'");
         (27, "srcportstart='67'");
         (27, "dstportstart='68'/>");
         (20, "</rule>");
         (18, "</filter>")]%nat.

(** [nova_ra_filter()]. *)
Definition nova_ra_filter (_ : unit) : string :=
  lines [(0, "<filter name='nova-allow-ra-server' chain='root'>");
         (28, "<uuid>d707fa71-4fb5-4b27-9ab7-ba5ca19c8804</uuid>");
         (30, "<rule action='accept' direction='inout'");
         (36, "priority='100'>");
         (32, "<icmpv6 srcipaddr='$RASERVER'/>");
         (30, "</rule>");
         (28, "</filter>")]%nat.

(** The rule [nova_base_ipv4_filter] and [nova_base_ipv6_filter] add for one
    protocol and one of the triples [(direction, action, priority)]. *)
Definition base_rule (protocol direction action : string) (priority : Z) : string :=
  lines [(0, "<rule action='" +:+ action +:+ "' direction='" +:+ direction
             +:+ "' priority='" +:+ str priority +:+ "'>");
         (31, "<" +:+ protocol +:+ " />");
         (29, "</rule>")]%nat.

(** [nova_base_ipv4_filter()]. *)
Definition nova_base_ipv4_filter (_ : unit) : string :=
  fold_left
    (fun retval protocol =>
       fold_left (fun retval dap => retval +:+ base_rule protocol dap.1.1 dap.1.2 dap.2)
         [("out", "accept", 399); ("in", "drop", 400)] retval)
    ["tcp"; "udp"; "icmp"] "<filter name='nova-base-ipv4' chain='ipv4'>"
  +:+ "</filter>".

(** [nova_base_ipv6_filter()]. *)
Definition nova_base_ipv6_filter (_ : unit) : string :=
  fold_left
    (fun retval protocol =>
       fold_left (fun retval dap => retval +:+ base_rule protocol dap.1.1 dap.1.2 dap.2)
         [("out", "accept", 399); ("in", "drop", 400)] retval)
    ["tcp-ipv6"; "udp-ipv6"; "icmpv6"] "<filter name='nova-base-ipv6' chain='ipv6'>"
  +:+ "</filter>".

(** [nova_project_filter()]. *)
Definition nova_project_filter (_ : unit) : string :=
  fold_left
    (fun retval protocol =>
       retval
       +:+ lines [(0, "<rule action='accept' direction='in' priority='200'>");
                  (27, "<" +:+ protocol
                       +:+ " srcipaddr='$PROJNET' srcipmask='$PROJMASK' />");
                  (25, "</rule>")]%nat)
    ["tcp"; "udp"; "icmp"] "<filter name='nova-project' chain='ipv4'>"
  +:+ "</filter>".

(** [nova_project_filter_v6()]. *)
Definition nova_project_filter_v6 (_ : unit) : string :=
  fold_left
    (fun retval protocol =>
       retval
       +:+ lines [(0, "<rule action='accept' direction='inout'");
                  (51, "priority='200'>");
                  (27, "<" +:+ protocol +:+ " srcipaddr='$PROJNETV6'");
                  (31, "srcipmask='$PROJMASKV6' />");
                  (25, "</rule>")]%nat)
    ["tcp-ipv6"; "udp-ipv6"; "icmpv6"] "<filter name='nova-project-v6' chain='ipv6'>"
  +:+ "</filter>".

(** The argument of [_define_filter]: a document, or a method that returns
    one. *)
Inductive filter_arg :=
  | Document (xml : string)
  | Method (xml : unit -> string).

(** [_define_filter(xml)]: [if callable(xml): xml = xml()], then the
    definition. *)
Definition _define_filter (w : World) (xml : filter_arg) : M unit :=
  let xml :=
    match xml with
    | Method f => f tt
    | Document xml => xml
    end in
  nwfilterDefineXML w xml.

(** [_ensure_static_filters()]: the object it leaves, when it returns. The
    only assignment is the last statement, so the object is unchanged when
    a definition raises. *)
Definition _ensure_static_filters (w : World) (self : Self) : M Self :=
  if static_filters_configured self then ret self
  else
    _define_filter w
      (Document (NWFilterFirewall._filter_container "nova-base"
                   ["no-mac-spoofing"; "no-ip-spoofing"; "no-arp-spoofing";
                    "allow-dhcp-server"])) ;;
    _define_filter w
      (Document (NWFilterFirewall._filter_container "nova-vpn" ["allow-dhcp-server"])) ;;
    _define_filter w (Method nova_base_ipv4_filter) ;;
    _define_filter w (Method nova_base_ipv6_filter) ;;
    _define_filter w (Method nova_dhcp_filter) ;;
    _define_filter w (Method nova_ra_filter) ;;
    (if allow_project_net_traffic w then
       _define_filter w (Method nova_project_filter) ;;
       (if use_ipv6 w then _define_filter w (Method nova_project_filter_v6)
        else ret tt)
     else ret tt) ;;
    ret {| static_filters_configured := true;
           handle_security_groups := handle_security_groups self |}.

(** [setup_basic_filtering(instance, network_info=None)]: the result, the
    object and the state it leaves. [logging.info] writes to the log like
    [LOG]. *)
Definition setup_basic_filtering (w : World) (self : Self) (instance : Instance)
    (network_info : option NetworkInfo) (s : State) : result unit * Self * State :=
  let s := exec (log "called setup_basic_filtering in nwfilter") s in
  let network_info := or_get_network_info w instance network_info in
  if handle_security_groups self then (Ok tt, self, s)
  else
    let s := exec (log "ensuring static filters") s in
    match _ensure_static_filters w self s with
    | (Raise e, s) => (Raise e, self, s)
    | (Ok self, s) =>
        let base_filter :=
          if String.eqb (instance_image_ref instance) (vpn_image_id w)
          then "nova-vpn" else "nova-base" in
        let '(r, s) :=
          for_each network_info
            (fun nm =>
               let nic_id := remove_char ":" (mac nm.2) in
               let instance_filter_name :=
                 NWFilterFirewall._instance_filter_name instance (Some nic_id) in
               _define_filter w
                 (Document (NWFilterFirewall._filter_container instance_filter_name
                              [base_filter]))) s in
        (r, self, s)
    end.

(** [IptablesFirewallDriver.setup_basic_filtering(instance,
    network_info=None)], on the driver's [nwfilter] object. *)
Definition iptables_setup_basic_filtering (w : World) (nwfilter : Self)
    (instance : Instance) (network_info : option NetworkInfo) (s : State)
    : result unit * Self * State :=
  let network_info := or_get_network_info w instance network_info in
  setup_basic_filtering w nwfilter instance (Some network_info) s.

End NWFilterBasic.

(** ** The migration to utf8
    ([nova/db/sqlalchemy/migrate_repo/versions/076_convert_to_utf8.py]) *)

Module Migration076.

(** [migrate_engine]: its [name], and whether [execute] runs a statement or
    raises on it. *)
Record Engine := {
  engine_name : string;
  accepts : string -> bool
}.

Inductive outcome :=
  | Returned
  | Raised.

(** [migrate_engine.execute(sql)], on the statements the database has run
    so far, oldest first. *)
Definition execute (engine : Engine) (sql : string) (executed : list string)
    : outcome * list string :=
  if accepts engine sql then (Returned, executed ++ [sql]) else (Raised, executed).

(** One [migrate_engine.execute] after the other. *)
Fixpoint execute_each (engine : Engine) (sqls : list string)
    (executed : list string) : outcome * list string :=
  match sqls with
  | [] => (Returned, executed)
  | sql :: rest =>
      match execute engine sql executed with
      | (Returned, executed) => execute_each engine rest executed
      | raised => raised
      end
  end.

(** The statements of [upgrade], in the order of its calls of
    [migrate_engine.execute]. *)
Definition statements : list string :=
  [
   "ALTER TABLE agent_builds CONVERT TO CHARACTER SET utf8";
   "ALTER TABLE aggregate_hosts CONVERT TO CHARACTER SET utf8";
   "ALTER TABLE aggregate_metadata CONVERT TO CHARACTER SET utf8";
   "ALTER TABLE aggregates CONVERT TO CHARACTER SET utf8";
   "ALTER TABLE auth_tokens CONVERT TO CHARACTER SET utf8";
   "ALTER TABLE block_device_mapping CONVERT TO CHARACTER SET utf8";
   "ALTER TABLE bw_usage_cache CONVERT TO CHARACTER SET utf8";
   "ALTER TABLE certificates CONVERT TO CHARACTER SET utf8";
   "ALTER TABLE compute_nodes CONVERT TO CHARACTER SET utf8";
   "ALTER TABLE console_pools CONVERT TO CHARACTER SET utf8";
   "ALTER TABLE consoles CONVERT TO CHARACTER SET utf8";
   "ALTER TABLE fixed_ips CONVERT TO CHARACTER SET utf8";
   "ALTER TABLE floating_ips CONVERT TO CHARACTER SET utf8";
   "SET foreign_key_checks = 0;ALTER TABLE instances CONVERT TO CHARACTER SET utf8";
   "ALTER TABLE instance_actions CONVERT TO CHARACTER SET utf8";
   "ALTER TABLE instance_faults CONVERT TO CHARACTER SET utf8";
   "ALTER TABLE instance_info_caches CONVERT TO CHARACTER SET utf8";
   "ALTER TABLE instance_metadata CONVERT TO CHARACTER SET utf8";
   "ALTER TABLE instance_type_extra_specs CONVERT TO CHARACTER SET utf8";
   "ALTER TABLE instance_types CONVERT TO CHARACTER SET utf8";
   "ALTER TABLE iscsi_targets CONVERT TO CHARACTER SET utf8";
   "ALTER TABLE key_pairs CONVERT TO CHARACTER SET utf8";
   "ALTER TABLE migrate_version CONVERT TO CHARACTER SET utf8";
   "ALTER TABLE migrations CONVERT TO CHARACTER SET utf8";
   "ALTER TABLE networks CONVERT TO CHARACTER SET utf8";
   "ALTER TABLE projects CONVERT TO CHARACTER SET utf8";
   "ALTER TABLE provider_fw_rules CONVERT TO CHARACTER SET utf8";
   "ALTER TABLE quotas CONVERT TO CHARACTER SET utf8";
   "ALTER TABLE s3_images CONVERT TO CHARACTER SET utf8";
   "ALTER TABLE security_group_instance_association CONVERT TO CHARACTER SET utf8";
   "ALTER TABLE security_group_rules CONVERT TO CHARACTER SET utf8";
   "ALTER TABLE security_groups CONVERT TO CHARACTER SET utf8";
   "ALTER TABLE services CONVERT TO CHARACTER SET utf8";
   "ALTER TABLE sm_backend_config CONVERT TO CHARACTER SET utf8";
   "ALTER TABLE sm_flavors CONVERT TO CHARACTER SET utf8";
   "ALTER TABLE sm_volume CONVERT TO CHARACTER SET utf8";
   "ALTER TABLE snapshots CONVERT TO CHARACTER SET utf8";
   "ALTER TABLE snapshots CONVERT TO CHARACTER SET utf8";
   "ALTER TABLE user_project_association CONVERT TO CHARACTER SET utf8";
   "ALTER TABLE user_project_role_association CONVERT TO CHARACTER SET utf8";
   "ALTER TABLE user_role_association CONVERT TO CHARACTER SET utf8";
   "ALTER TABLE users CONVERT TO CHARACTER SET utf8";
   "ALTER TABLE virtual_interfaces CONVERT TO CHARACTER SET utf8";
   "ALTER TABLE virtual_storage_arrays CONVERT TO CHARACTER SET utf8";
   "ALTER TABLE volume_metadata CONVERT TO CHARACTER SET utf8";
   "ALTER TABLE volumes CONVERT TO CHARACTER SET utf8";
   "ALTER TABLE volume_type_extra_specs CONVERT TO CHARACTER SET utf8";
   "ALTER TABLE volume_types CONVERT TO CHARACTER SET utf8";
   "ALTER TABLE zones CONVERT TO CHARACTER SET utf8";
   "SET foreign_key_checks = 1";
   "ALTER DATABASE nova DEFAULT CHARACTER SET utf8"
  ].

(** [upgrade(migrate_engine)]. *)
Definition upgrade (engine : Engine) (executed : list string)
    : outcome * list string :=
  if String.eqb (engine_name engine) "mysql"
  then execute_each engine statements executed
  else (Returned, executed).

(** The statements of [sqls] before the first one the engine rejects. *)
Fixpoint accepted (engine : Engine) (sqls : list string) : list string :=
  match sqls with
  | [] => []
  | sql :: rest => if accepts engine sql then sql :: accepted engine rest else []
  end.

End Migration076.

(** ** Vocabulary of the further properties *)

(** The rules [instance_rules] reads for an instance, in the order it reads
    them: those of each attached group, group after group. *)
Definition attached_rules (w : World) (instance : Instance) : list Rule :=
  flat_map (fun group => security_group_rule_get_by_security_group w (sg_id group))
    (security_group_get_by_instance w (instance_id instance)).

(** The directives of the rules of [rules] that have a cidr of version 4
    ([v4 = true]) or of another version ([v4 = false]), in order. *)
Definition rule_directives (w : World) (v4 : bool) (rules : list Rule) : list string :=
  flat_map (fun rule =>
              match truthy (rule_cidr rule) with
              | Some c =>
                  if bool_decide ((get_ip_version w c =? 4) = v4)
                  then [directive_of w rule c] else []
              | None => []
              end) rules.

(** The rules [security_group_to_nwfilter_xml] cannot encode: a cidr of
    IP version 6, with [use_ipv6] set, and a protocol that [v6protocol]
    does not have. *)
Definition no_v6protocol (w : World) (rule : Rule) : bool :=
  match truthy (rule_cidr rule) with
  | Some c =>
      use_ipv6 w && (get_ip_version w c =? 6)
      && negb (String.eqb (rule_protocol rule) "tcp"
               || String.eqb (rule_protocol rule) "udp"
               || String.eqb (rule_protocol rule) "icmp")
  | None => false
  end.


(** The state [s] once libvirt has defined the documents [xmls]. *)
Definition defining (xmls : list string) (s : State) : State :=
  {| iptables := iptables s; instances := instances s;
     nwfilters := nwfilters s ++ xmls; LOG := LOG s |}.




(** Every tracked instance is filed under its own id. *)
Definition tracked_by_id (s : State) : Prop :=
  map_Forall (fun key instance => instance_id instance = key) (instances s).

#[global] Instance tracked_by_id_dec (s : State) : Decision (tracked_by_id s).
Proof. unfold tracked_by_id. apply _. Defined.

(** The static filters, in the order [_ensure_static_filters] defines
    them. *)
Definition static_documents (w : World) : list string :=
  [NWFilterFirewall._filter_container "nova-base"
     ["no-mac-spoofing"; "no-ip-spoofing"; "no-arp-spoofing"; "allow-dhcp-server"];
   NWFilterFirewall._filter_container "nova-vpn" ["allow-dhcp-server"];
   NWFilterBasic.nova_base_ipv4_filter tt;
   NWFilterBasic.nova_base_ipv6_filter tt;
   NWFilterBasic.nova_dhcp_filter tt;
   NWFilterBasic.nova_ra_filter tt]
  ++ (if allow_project_net_traffic w
      then NWFilterBasic.nova_project_filter tt
           :: (if use_ipv6 w then [NWFilterBasic.nova_project_filter_v6 tt] else [])
      else []).

(** The documents of [xmls] up to the first one libvirt rejects. *)
Fixpoint accepted_prefix (w : World) (xmls : list string) : list string :=
  match xmls with
  | [] => []
  | xml :: rest =>
      if nwfilter_accepted w xml then xml :: accepted_prefix w rest else []
  end.

(** What defining the documents [xmls] one after the other gives: all are
    defined, or the ones before the first rejected one and [libvirtError]. *)
Definition define_each (w : World) (xmls : list string) (s : State)
    : result unit * State :=
  if forallb (nwfilter_accepted w) xmls then (Ok tt, defining xmls s)
  else (Raise libvirtError, defining (accepted_prefix w xmls) s).

(** The filters [setup_basic_filtering] defines for the NICs. *)
Definition basic_nic_documents (w : World) (instance : Instance)
    (network_info : NetworkInfo) : list string :=
  map (fun nm =>
         NWFilterFirewall._filter_container (nic_filter_name instance nm)
           [if String.eqb (instance_image_ref instance) (vpn_image_id w)
            then "nova-vpn" else "nova-base"])
      network_info.

(** The state [s] with the lines [ls] logged. *)
Definition logging (ls : list string) (s : State) : State :=
  {| iptables := iptables s; instances := instances s;
     nwfilters := nwfilters s; LOG := LOG s ++ ls |}.

(** [runs_as m xmls a]: [m] defines the documents [xmls] in order, as far
    as libvirt accepts them, and then returns [a]. *)
Definition runs_as {A} (w : World) (m : M A) (xmls : list string) (a : A) : Prop :=
  ∀ s, m s = match define_each w xmls s with
             | (Ok _, s') => (Ok a, s')
             | (Raise e, s') => (Raise e, s')
             end.

(** ** More example data *)

Module Example2.



(** A mysql engine that rejects the conversion of the table [zones]. *)
Definition engine_without_zones : Migration076.Engine :=
  {| Migration076.engine_name := "mysql";
     Migration076.accepts := fun sql =>
       negb (String.eqb sql "ALTER TABLE zones CONVERT TO CHARACTER SET utf8") |}.

End Example2.

(** * Properties *)

(** ** Strings *)

Lemma append_assoc (a b c : string) : (a +:+ b) +:+ c = a +:+ b +:+ c.
Proof.
  induction a as [|x a IH]; [done|].
  change (String x ((a +:+ b) +:+ c) = String x (a +:+ b +:+ c)). by rewrite IH.
Qed.

Lemma string_of_uint_nonempty (d : Decimal.uint) : NilZero.string_of_uint d ≠ "".
Proof. by destruct d. Qed.

Lemma str_nonempty (n : Z) : str n ≠ "".
Proof.
  unfold str. destruct (Z.to_int n) as [d|d]; simpl; [|done].
  apply string_of_uint_nonempty.
Qed.

Lemma truthy_Some_nonempty (s : string) : s ≠ "" → truthy (Some s) = Some s.
Proof. by destruct s. Qed.

Lemma truthy_icmp_type_arg (icmp_type icmp_code : Z) :
  truthy (icmp_type_arg icmp_type icmp_code) = icmp_type_arg icmp_type icmp_code.
Proof.
  unfold icmp_type_arg. destruct (icmp_type =? -1); [done|].
  apply truthy_Some_nonempty.
  pose proof (str_nonempty icmp_type). by destruct (str icmp_type).
Qed.

(** ** The chain table *)

Lemma chain_rules_add_rule (chain rule name : string) (t : IptablesTable) :
  chain_rules name (add_rule chain rule t)
  = chain_rules name t ++ (if decide (chain = name) then [rule] else []).
Proof.
  unfold chain_rules, add_rule. simpl. rewrite filter_app, fmap_app. f_equal.
  rewrite filter_cons, filter_nil. simpl. by destruct (decide (chain = name)).
Qed.

Lemma chain_rules_add_chain (chain name : string) (t : IptablesTable) :
  chain_rules name (add_chain chain t) = chain_rules name t.
Proof. done. Qed.

Lemma chain_rules_remove_chain (name : string) (t : IptablesTable) :
  chain_rules name (remove_chain name t) = [].
Proof.
  unfold chain_rules, remove_chain. simpl.
  induction (rules t) as [|r l IH]; [done|].
  rewrite filter_cons. destruct (decide (r.1 ≠ name)) as [Hne|Heq]; [|done].
  rewrite filter_cons. by destruct (decide (r.1 = name)).
Qed.

Lemma chains_remove_chain (name : string) (t : IptablesTable) :
  name ∉ chains (remove_chain name t).
Proof.
  unfold remove_chain. simpl. intros [_ H]%elem_of_difference.
  apply H. by apply elem_of_singleton.
Qed.

(** ** The compiled lists only grow *)

Section compile.
Context (w : World).

Lemma instance_rule_step_grows acc rule :
  ∃ l4 l6, instance_rule_step w acc rule = (acc.1 ++ l4, acc.2 ++ l6).
Proof.
  unfold instance_rule_step. destruct (truthy (rule_cidr rule)) as [c|].
  - cbv zeta. destruct (get_ip_version w c =? 4).
    + eexists [_], []. by rewrite (app_nil_r acc.2).
    + eexists [], [_]. by rewrite (app_nil_r acc.1).
  - exists [], []. rewrite !app_nil_r. by destruct acc.
Qed.

Lemma fold_rule_step_grows rules acc :
  ∃ l4 l6, fold_left (instance_rule_step w) rules acc = (acc.1 ++ l4, acc.2 ++ l6).
Proof.
  revert acc. induction rules as [|rule rules IH]; intros acc; simpl.
  - exists [], []. rewrite !app_nil_r. by destruct acc.
  - destruct (instance_rule_step_grows acc rule) as (a4 & a6 & ->).
    destruct (IH (acc.1 ++ a4, acc.2 ++ a6)) as (b4 & b6 & ->). simpl.
    exists (a4 ++ b4), (a6 ++ b6). by rewrite !app_assoc.
Qed.

Lemma fold_group_step_grows groups acc :
  ∃ l4 l6, fold_left (instance_group_step w) groups acc = (acc.1 ++ l4, acc.2 ++ l6).
Proof.
  revert acc. induction groups as [|g groups IH]; intros acc; simpl.
  - exists [], []. rewrite !app_nil_r. by destruct acc.
  - unfold instance_group_step at 2.
    destruct (fold_rule_step_grows
                (security_group_rule_get_by_security_group w (sg_id g)) acc)
      as (a4 & a6 & ->).
    destruct (IH (acc.1 ++ a4, acc.2 ++ a6)) as (b4 & b6 & ->). simpl.
    exists (a4 ++ b4), (a6 ++ b6). by rewrite !app_assoc.
Qed.

Lemma compiled_into_grows version acc l4 l6 x :
  x ∈ compiled_into version acc →
  x ∈ compiled_into version (acc.1 ++ l4, acc.2 ++ l6).
Proof. unfold compiled_into. destruct (version =? 4); simpl; set_solver. Qed.

Lemma instance_rule_step_adds acc rule c :
  truthy (rule_cidr rule) = Some c →
  directive_of w rule c
    ∈ compiled_into (get_ip_version w c) (instance_rule_step w acc rule).
Proof.
  intros Hc. unfold instance_rule_step, compiled_into, directive_of. rewrite Hc.
  destruct (get_ip_version w c =? 4); simpl; set_solver.
Qed.

Lemma fold_rule_step_adds rules acc rule c :
  rule ∈ rules →
  truthy (rule_cidr rule) = Some c →
  directive_of w rule c
    ∈ compiled_into (get_ip_version w c) (fold_left (instance_rule_step w) rules acc).
Proof.
  intros Hin Hc. revert acc.
  induction rules as [|r' rules IH]; intros acc; simpl.
  - by apply elem_of_nil in Hin.
  - apply elem_of_cons in Hin as [<-|Hin]; [|by apply IH].
    destruct (fold_rule_step_grows rules (instance_rule_step w acc rule))
      as (l4 & l6 & ->).
    by apply compiled_into_grows, instance_rule_step_adds.
Qed.

Lemma fold_group_step_adds groups acc group rule c :
  group ∈ groups →
  rule ∈ security_group_rule_get_by_security_group w (sg_id group) →
  truthy (rule_cidr rule) = Some c →
  directive_of w rule c
    ∈ compiled_into (get_ip_version w c) (fold_left (instance_group_step w) groups acc).
Proof.
  intros Hin Hr Hc. revert acc.
  induction groups as [|g' groups IH]; intros acc; simpl.
  - by apply elem_of_nil in Hin.
  - apply elem_of_cons in Hin as [<-|Hin]; [|by apply IH].
    destruct (fold_group_step_grows groups (instance_group_step w acc group))
      as (l4 & l6 & ->).
    by apply compiled_into_grows, fold_rule_step_adds.
Qed.

(** Every rule with a cidr, of every attached group, has its directive in
    the list of its IP version. *)
Lemma instance_rules_adds instance network_info group rule c :
  group ∈ security_group_get_by_instance w (instance_id instance) →
  rule ∈ security_group_rule_get_by_security_group w (sg_id group) →
  truthy (rule_cidr rule) = Some c →
  directive_of w rule c
    ∈ compiled_into (get_ip_version w c) (instance_rules w instance network_info).
Proof.
  intros Hg Hr Hc. unfold instance_rules.
  match goal with |- _ ∈ compiled_into _ (?a.1 ++ ?x, ?a.2 ++ ?y) =>
    apply (compiled_into_grows _ a x y) end.
  by eapply fold_group_step_adds.
Qed.

(** A rule without a cidr leaves both lists as they are. *)
Lemma instance_rule_step_no_cidr acc rule :
  truthy (rule_cidr rule) = None → instance_rule_step w acc rule = acc.
Proof. intros H. unfold instance_rule_step. by rewrite H. Qed.

(** A rule without a cidr still gets a rule element, an empty one. *)
Lemma rule_to_xml_no_cidr rule :
  truthy (rule_cidr rule) = None →
  NWFilterFirewall.rule_to_xml w rule
  = Ok ("<rule action='accept' direction='in' priority='300'></rule>" +:+ LF).
Proof. intros H. unfold NWFilterFirewall.rule_to_xml. by rewrite H. Qed.

End compile.

(** ** The fallback jump and the fallback chain *)

(** C1. Whatever the instance, its attachments and its security groups
    (none, or groups without rules, included), each of the two lists that
    [instance_rules] returns ends with the jump to the shared fallback
    chain. And [__init__], run on tables in which the chain [sg-fallback]
    holds no rule yet, leaves that chain present in the v4 and in the v6
    table with one rule each, [-j DROP]. *)
Theorem fallback_jump_is_last (w : World) (instance : Instance)
    (network_info : option NetworkInfo) (s : State) :
  chain_rules "sg-fallback" (ipv4_filter (iptables s)) = [] →
  chain_rules "sg-fallback" (ipv6_filter (iptables s)) = [] →
  last (instance_rules w instance network_info).1 = Some "-j $sg-fallback"
  ∧ last (instance_rules w instance network_info).2 = Some "-j $sg-fallback"
  ∧ (IptablesFirewallDriver.__init__ s).1 = Ok tt
  ∧ "sg-fallback" ∈ chains (ipv4_filter (iptables (exec IptablesFirewallDriver.__init__ s)))
  ∧ "sg-fallback" ∈ chains (ipv6_filter (iptables (exec IptablesFirewallDriver.__init__ s)))
  ∧ chain_rules "sg-fallback"
      (ipv4_filter (iptables (exec IptablesFirewallDriver.__init__ s)))
    = ["-j DROP"]
  ∧ chain_rules "sg-fallback"
      (ipv6_filter (iptables (exec IptablesFirewallDriver.__init__ s)))
    = ["-j DROP"].
Proof.
  intros H4 H6. repeat split.
  - unfold instance_rules. simpl. apply last_snoc.
  - unfold instance_rules. simpl. apply last_snoc.
  - simpl. apply elem_of_union_l. by apply elem_of_singleton.
  - simpl. apply elem_of_union_l. by apply elem_of_singleton.
  - simpl. by rewrite chain_rules_add_rule, chain_rules_add_chain, H4.
  - simpl. by rewrite chain_rules_add_rule, chain_rules_add_chain, H6.
Qed.

Lemma fallback_jump_is_last_witness :
  chain_rules "sg-fallback" (ipv4_filter (iptables Example.fresh)) = []
  ∧ chain_rules "sg-fallback" (ipv6_filter (iptables Example.fresh)) = []
  ∧ last (instance_rules Example.world_without_groups Example.instance_1 None).1
    = Some "-j $sg-fallback"
  ∧ chain_rules "sg-fallback"
      (ipv6_filter (iptables (exec IptablesFirewallDriver.__init__ Example.fresh)))
    = ["-j DROP"].
Proof.
  pose proof (fallback_jump_is_last Example.world_without_groups
                Example.instance_1 None Example.fresh eq_refl eq_refl)
    as (Hlast & _ & _ & _ & _ & _ & Hdrop).
  split; [reflexivity|]. split; [reflexivity|].
  split; [exact Hlast|exact Hdrop].
Defined.

(** ** Ports of tcp and udp rules *)

(** C6. A tcp or udp rule with a cidr, of a group attached to the instance,
    compiles to exactly one directive, added to the list of the cidr's IP
    version and present in the result of [instance_rules]: the source match
    [-s cidr], then [--dport from_port] when [from_port == to_port] and
    [-m multiport --dports from_port:to_port] otherwise. *)
Theorem tcp_udp_port_match (w : World) (instance : Instance)
    (network_info : option NetworkInfo) (group : SecurityGroup) (rule : Rule)
    (c : string) :
  group ∈ security_group_get_by_instance w (instance_id instance) →
  rule ∈ security_group_rule_get_by_security_group w (sg_id group) →
  rule_protocol rule = "tcp" ∨ rule_protocol rule = "udp" →
  truthy (rule_cidr rule) = Some c →
  let directive :=
    join " " (["-p"; rule_protocol rule; "-s"; c]
              ++ (if from_port rule =? to_port rule
                  then ["--dport"; str (from_port rule)]
                  else ["-m"; "multiport"; "--dports";
                        str (from_port rule) +:+ ":" +:+ str (to_port rule)])
              ++ ["-j ACCEPT"]) in
  (∀ acc, instance_rule_step w acc rule
          = if get_ip_version w c =? 4 then (acc.1 ++ [directive], acc.2)
            else (acc.1, acc.2 ++ [directive]))
  ∧ directive
      ∈ compiled_into (get_ip_version w c) (instance_rules w instance network_info).
Proof.
  intros Hg Hr Hp Hc directive.
  assert (directive_of w rule c = directive) as Hd.
  { unfold directive_of, directive, rule_args.
    destruct Hp as [-> | ->]; simpl;
      rewrite andb_false_r; by destruct (from_port rule =? to_port rule). }
  split.
  - intros acc. unfold instance_rule_step. rewrite Hc. cbv zeta.
    fold (directive_of w rule c). by rewrite Hd.
  - rewrite <- Hd. by eapply instance_rules_adds.
Qed.

Lemma tcp_udp_port_match_witness :
  "-p tcp -s 0.0.0.0/0 --dport 22 -j ACCEPT"
    ∈ (instance_rules (Example.world [Example.rule_ssh; Example.rule_udp_range])
         Example.instance_1 None).1
  ∧ "-p udp -s 0.0.0.0/0 -m multiport --dports 5000:5010 -j ACCEPT"
    ∈ (instance_rules (Example.world [Example.rule_ssh; Example.rule_udp_range])
         Example.instance_1 None).1.
Proof.
  split.
  - apply (tcp_udp_port_match
             (Example.world [Example.rule_ssh; Example.rule_udp_range])
             Example.instance_1 None
             {| sg_id := 1; sg_rules := [Example.rule_ssh; Example.rule_udp_range] |}
             Example.rule_ssh "0.0.0.0/0").
    + simpl. apply list_elem_of_here.
    + simpl. apply list_elem_of_here.
    + left. reflexivity.
    + reflexivity.
  - apply (tcp_udp_port_match
             (Example.world [Example.rule_ssh; Example.rule_udp_range])
             Example.instance_1 None
             {| sg_id := 1; sg_rules := [Example.rule_ssh; Example.rule_udp_range] |}
             Example.rule_udp_range "0.0.0.0/0").
    + simpl. apply list_elem_of_here.
    + simpl. apply list_elem_of_further, list_elem_of_here.
    + right. reflexivity.
    + reflexivity.
Defined.

(** ** Type and code of icmp rules *)

(** C4, as the code has it. For an icmp rule with a cidr of IP version 4
    or 6:
    - [instance_rules] compiles it to one directive, which has no type
      qualifier when [from_port] is -1 (whatever [to_port] is), and has
      [--icmp-type] (v4) or [--icmpv6-type] (v6) with the type otherwise,
      followed by [/code] only when [to_port] is not -1;
    - [security_group_to_nwfilter_xml] gives it one rule element, which has
      the attribute [type] exactly when [from_port] is not -1 and the
      attribute [code] exactly when [to_port] is not -1, each on its own:
      a code is written also when no type is. *)
Theorem icmp_type_and_code (w : World) (rule : Rule) (c : string) :
  rule_protocol rule = "icmp" →
  truthy (rule_cidr rule) = Some c →
  get_ip_version w c = 4 ∨ get_ip_version w c = 6 →
  let version := get_ip_version w c in
  let directive :=
    join " " (["-p"; if version =? 6 then "icmpv6" else "icmp"; "-s"; c]
              ++ (if from_port rule =? -1 then []
                  else ["-m"; if version =? 4 then "icmp" else "icmp6";
                        if version =? 4 then "--icmp-type" else "--icmpv6-type";
                        str (from_port rule)
                        +:+ (if to_port rule =? -1 then ""
                             else "/" +:+ str (to_port rule))])
              ++ ["-j ACCEPT"]) in
  let element :=
    if use_ipv6 w && (version =? 6)
    then "<icmpv6 srcipaddr='" +:+ (get_net_and_prefixlen w c).1
         +:+ "' srcipmask='" +:+ str (get_net_and_prefixlen w c).2 +:+ "' "
    else "<icmp srcipaddr='" +:+ (get_net_and_mask w c).1
         +:+ "' srcipmask='" +:+ (get_net_and_mask w c).2 +:+ "' " in
  (∀ acc, instance_rule_step w acc rule
          = if version =? 4 then (acc.1 ++ [directive], acc.2)
            else (acc.1, acc.2 ++ [directive]))
  ∧ NWFilterFirewall.rule_to_xml w rule
    = Ok ("<rule action='accept' direction='in' priority='300'>"
          +:+ element
          +:+ (if from_port rule =? -1 then ""
               else "type='" +:+ str (from_port rule) +:+ "' ")
          +:+ (if to_port rule =? -1 then ""
               else "code='" +:+ str (to_port rule) +:+ "' ")
          +:+ "/>" +:+ LF +:+ "</rule>" +:+ LF).
Proof.
  intros Hp Hc Hv version directive element. split.
  - intros acc. unfold instance_rule_step. rewrite Hc. cbv zeta.
    fold version.
    assert (join " " (rule_args version rule c) = directive) as ->; [|done].
    unfold directive, rule_args. rewrite truthy_icmp_type_arg, Hp.
    unfold icmp_type_arg.
    destruct Hv as [Hv|Hv]; unfold version; rewrite Hv; simpl;
      by destruct (from_port rule =? -1), (to_port rule =? -1).
  - unfold NWFilterFirewall.rule_to_xml. rewrite Hc. cbv zeta.
    fold version. unfold element. rewrite Hp. simpl.
    destruct (use_ipv6 w && (version =? 6)); simpl.
    + destruct (get_net_and_prefixlen w c) as [net prefixlen]. simpl.
      destruct (from_port rule =? -1), (to_port rule =? -1); simpl;
        by rewrite ?append_assoc.
    + destruct (get_net_and_mask w c) as [net mask]. simpl.
      destruct (from_port rule =? -1), (to_port rule =? -1); simpl;
        by rewrite ?append_assoc.
Qed.

Lemma icmp_type_and_code_witness :
  rule_protocol Example.rule_ping = "icmp"
  ∧ truthy (rule_cidr Example.rule_ping) = Some "0.0.0.0/0"
  ∧ instance_rule_step (Example.world [Example.rule_ping]) ([], []) Example.rule_ping
    = (["-p icmp -s 0.0.0.0/0 -m icmp --icmp-type 8 -j ACCEPT"], [])
  ∧ NWFilterFirewall.rule_to_xml (Example.world [Example.rule_ping]) Example.rule_ping
    = Ok ("<rule action='accept' direction='in' priority='300'>"
          +:+ "<icmp srcipaddr='0.0.0.0' srcipmask='0.0.0.0' type='8' />"
          +:+ LF +:+ "</rule>" +:+ LF).
Proof.
  pose proof (icmp_type_and_code (Example.world [Example.rule_ping])
                Example.rule_ping "0.0.0.0/0" eq_refl eq_refl
                (or_introl eq_refl)) as [Hstep Hxml].
  split; [reflexivity|]. split; [reflexivity|].
  split; [exact (Hstep ([], []))|exact Hxml].
Defined.

(** C4, as stated, fails on the filter-graph side: for the icmp rule with
    any type and code 5, [security_group_to_nwfilter_xml] writes the rule
    element with a [code] attribute and no [type] attribute, where
    [instance_rules] writes neither a type nor a code. *)
Lemma nwfilter_code_without_type :
  NWFilterFirewall.rule_to_xml (Example.world [Example.rule_icmp_code_only])
    Example.rule_icmp_code_only
  = Ok ("<rule action='accept' direction='in' priority='300'>"
        +:+ "<icmp srcipaddr='0.0.0.0' srcipmask='0.0.0.0' code='5' />"
        +:+ LF +:+ "</rule>" +:+ LF)
  ∧ NWFilterFirewall.security_group_to_nwfilter_xml
      (Example.world [Example.rule_icmp_code_only]) 1
    = Ok ("<filter name='nova-secgroup-1' chain='ipv4'>"
          +:+ "<rule action='accept' direction='in' priority='300'>"
          +:+ "<icmp srcipaddr='0.0.0.0' srcipmask='0.0.0.0' code='5' />"
          +:+ LF +:+ "</rule>" +:+ LF +:+ "</filter>")
  ∧ (∀ xml,
       NWFilterFirewall.security_group_to_nwfilter_xml
         (Example.world [Example.rule_icmp_code_only]) 1 = Ok xml →
       contains "code=" xml = true ∧ contains "type=" xml = false)
  ∧ (instance_rules (Example.world [Example.rule_icmp_code_only])
       Example.instance_1 None).1
    = ["-m state --state INVALID -j DROP";
       "-m state --state ESTABLISHED,RELATED -j ACCEPT";
       "-s 10.0.0.1 -p udp --sport 67 --dport 68 -j ACCEPT";
       "-p icmp -s 0.0.0.0/0 -j ACCEPT";
       "-j $sg-fallback"].
Proof.
  split; [reflexivity|]. split; [reflexivity|]. split; [|reflexivity].
  intros xml [= <-]. split; reflexivity.
Qed.

(** ** Rules without a cidr *)

(** C5, at a group whose one rule names no cidr. [instance_rules] returns
    the lists it returns when the group has no rule at all, but
    [security_group_to_nwfilter_xml] writes a rule element for the rule, an
    accept rule with no match in it, which the document of the group
    without rules does not have. *)
Theorem rule_without_cidr_compiled :
  instance_rules (Example.world [Example.rule_no_cidr]) Example.instance_1 None
  = instance_rules (Example.world []) Example.instance_1 None
  ∧ NWFilterFirewall.security_group_to_nwfilter_xml
      (Example.world [Example.rule_no_cidr]) 1
    = Ok ("<filter name='nova-secgroup-1' chain='ipv4'>"
          +:+ "<rule action='accept' direction='in' priority='300'></rule>" +:+ LF
          +:+ "</filter>")
  ∧ NWFilterFirewall.security_group_to_nwfilter_xml (Example.world []) 1
    = Ok "<filter name='nova-secgroup-1' chain='ipv4'></filter>".
Proof. repeat split. Qed.

(** ** Unfiltering *)

(** Whatever [unfilter_instance] does, the instance is not tracked after it. *)
Lemma unfilter_instance_untracks (w : World) (instance : Instance) (s : State) :
  instances (exec (IptablesFirewallDriver.unfilter_instance w instance) s)
    !! instance_id instance = None.
Proof.
  unfold exec, IptablesFirewallDriver.unfilter_instance, bind,
    IptablesFirewallDriver.instances_pop,
    IptablesFirewallDriver.remove_filters_for_instance. simpl.
  destruct (instances s !! instance_id instance); simpl.
  - unfold apply, bind. destruct (use_ipv6 w), (apply_accepted w); simpl;
      apply lookup_delete_eq.
  - apply lookup_delete_eq.
Qed.

Lemma unfilter_instance_not_tracked (w : World) (instance : Instance) (s : State) :
  instances s !! instance_id instance = None →
  IptablesFirewallDriver.unfilter_instance w instance s
  = (Ok tt, {| iptables := iptables s; instances := instances s;
               nwfilters := nwfilters s;
               LOG := LOG s ++ [not_filtered_line instance] |}).
Proof.
  intros H.
  unfold IptablesFirewallDriver.unfilter_instance, bind,
    IptablesFirewallDriver.instances_pop. simpl.
  rewrite H. unfold log. simpl. by rewrite delete_id.
Qed.

(** C7. [unfilter_instance] on an instance that is not tracked returns
    without raising and changes nothing but the log, to which it adds one
    line: the tables, staged and committed, are the same (no chain is
    removed, nothing is committed) and so is the set of tracked instances.
    This is the case of every second [unfilter_instance] that follows a
    first one on the same instance, whatever the first one did and
    returned. *)
Theorem unfilter_instance_untracked (w : World) (instance : Instance) (s : State) :
  instances s !! instance_id instance = None →
  IptablesFirewallDriver.unfilter_instance w instance s
  = (Ok tt, {| iptables := iptables s; instances := instances s;
               nwfilters := nwfilters s;
               LOG := LOG s ++ [not_filtered_line instance] |})
  ∧ ∀ w0 s0,
      let s1 := exec (IptablesFirewallDriver.unfilter_instance w0 instance) s0 in
      IptablesFirewallDriver.unfilter_instance w instance s1
      = (Ok tt, {| iptables := iptables s1; instances := instances s1;
                   nwfilters := nwfilters s1;
                   LOG := LOG s1 ++ [not_filtered_line instance] |}).
Proof.
  intros H. split.
  - exact (unfilter_instance_not_tracked w instance s H).
  - intros w0 s0 s1. apply unfilter_instance_not_tracked.
    apply unfilter_instance_untracks.
Qed.

Lemma unfilter_instance_untracked_witness :
  let w := Example.world [Example.rule_ssh] in
  let s := exec (IptablesFirewallDriver.unfilter_instance w Example.instance_1)
             (Example.one_prepared w) in
  instances s !! 1 = None
  ∧ IptablesFirewallDriver.unfilter_instance w Example.instance_1 s
    = (Ok tt, {| iptables := iptables s; instances := instances s;
                 nwfilters := nwfilters s;
                 LOG := LOG s ++ ["Attempted to unfilter instance 1 which is not filtered"] |}).
Proof.
  intros w s.
  assert (instances s !! instance_id Example.instance_1 = None) as H
    by (vm_compute; reflexivity).
  split; [exact H|].
  exact (proj1 (unfilter_instance_untracked w Example.instance_1 s H)).
Defined.

(** C8, as the code has it. [IptablesFirewallDriver.unfilter_instance] on a
    tracked instance removes the instance's chain, and the rules in it, from
    the v4 table, and from the v6 table when [use_ipv6] is set; it commits
    (when the commit is accepted) and the instance is no longer tracked. It
    leaves the filter documents libvirt holds as they are, and so does
    [NWFilterFirewall.unfilter_instance], which does nothing. *)
Theorem unfilter_instance_removes_chains (w : World) (instance tracked : Instance)
    (s : State) :
  instances s !! instance_id instance = Some tracked →
  let chain_name := IptablesFirewallDriver._instance_chain_name instance in
  let s' := exec (IptablesFirewallDriver.unfilter_instance w instance) s in
  (chain_name ∉ chains (ipv4_filter (iptables s')))
  ∧ chain_rules chain_name (ipv4_filter (iptables s')) = []
  ∧ (use_ipv6 w = true →
     (chain_name ∉ chains (ipv6_filter (iptables s')))
     ∧ chain_rules chain_name (ipv6_filter (iptables s')) = [])
  ∧ (apply_accepted w = true →
     IptablesFirewallDriver.unfilter_instance w instance s = (Ok tt, s')
     ∧ applied (iptables s')
       = applied (iptables s)
         ++ [(ipv4_filter (iptables s'), ipv6_filter (iptables s'))])
  ∧ instances s' = delete (instance_id instance) (instances s)
  ∧ nwfilters s' = nwfilters s
  ∧ ∀ s0, NWFilterFirewall.unfilter_instance instance s0 = (Ok tt, s0).
Proof.
  intros H chain_name s'. subst s'.
  unfold exec, IptablesFirewallDriver.unfilter_instance, bind,
    IptablesFirewallDriver.instances_pop,
    IptablesFirewallDriver.remove_filters_for_instance. simpl. rewrite H.
  unfold apply, bind.
  destruct (use_ipv6 w), (apply_accepted w); simpl;
    repeat split; try done;
    try apply chains_remove_chain; try apply chain_rules_remove_chain.
Qed.

Lemma unfilter_instance_removes_chains_witness :
  let w := Example.world [Example.rule_ssh] in
  let s := Example.one_prepared w in
  let s' := exec (IptablesFirewallDriver.unfilter_instance w Example.instance_1) s in
  instances s !! 1 = Some Example.instance_1
  ∧ chain_rules "inst-1" (ipv4_filter (iptables s))
    = ["-m state --state INVALID -j DROP";
       "-m state --state ESTABLISHED,RELATED -j ACCEPT";
       "-s 10.0.0.1 -p udp --sport 67 --dport 68 -j ACCEPT";
       "-p tcp -s 0.0.0.0/0 --dport 22 -j ACCEPT";
       "-j $sg-fallback"]
  ∧ chain_rules "inst-1" (ipv4_filter (iptables s')) = [].
Proof.
  intros w s s'.
  assert (instances s !! instance_id Example.instance_1 = Some Example.instance_1)
    as H by (vm_compute; reflexivity).
  split; [exact H|]. split; [vm_compute; reflexivity|].
  exact (proj1 (proj2 (unfilter_instance_removes_chains w Example.instance_1
                         Example.instance_1 s H))).
Defined.

(** C8, as stated, fails on the filter-graph side: the filter of the NIC,
    which [NWFilterFirewall.prepare_instance_filter] defined, is still
    defined after [unfilter_instance], the one of [NWFilterFirewall] and the
    one of [IptablesFirewallDriver]. *)
Lemma nwfilter_objects_survive_unfilter :
  let w := Example.world [Example.rule_ssh] in
  let prepared :=
    exec (NWFilterFirewall.prepare_instance_filter w Example.instance_1 None)
      (Example.one_prepared w) in
  let nic_filter :=
    "<filter name='nova-instance-instance-00000001-aabbccddeeff' chain='root'>"
    +:+ "<filterref filter='nova-base'/>"
    +:+ "<filterref filter='nova-instance-instance-00000001-secgroup'/>"
    +:+ "</filter>" in
  last (nwfilters prepared) = Some nic_filter
  ∧ last (nwfilters
            (exec (NWFilterFirewall.unfilter_instance Example.instance_1) prepared))
    = Some nic_filter
  ∧ last (nwfilters
            (exec (IptablesFirewallDriver.unfilter_instance w Example.instance_1)
               prepared))
    = Some nic_filter.
Proof. vm_compute. repeat split. Qed.

(** ** Looking the filters of an instance up *)

Lemma filter_exists_loop_result (w : World) (instance : Instance)
    (network_info : NetworkInfo) (s : State) :
  NWFilterFirewall.filter_exists_loop w instance network_info s
  = match List.find (fun name => negb (nwfilter_found w name))
            (map (nic_filter_name instance) network_info) with
    | Some missing =>
        (Ok false, {| iptables := iptables s; instances := instances s;
                      nwfilters := nwfilters s;
                      LOG := LOG s ++ [not_found_line instance missing] |})
    | None => (Ok true, s)
    end.
Proof.
  induction network_info as [|[network mapping] l IH]; [done|].
  simpl. unfold bind at 1. unfold try_except_libvirtError, nwfilterLookupByName.
  unfold bind at 1. unfold nic_filter_name at 1. simpl.
  destruct (nwfilter_found w _); simpl; [apply IH|done].
Qed.

Lemma find_missing_forallb (found : string → bool) (names : list string) :
  forallb found names
  = match List.find (fun name => negb (found name)) names with
    | Some _ => false
    | None => true
    end.
Proof.
  induction names as [|name names IH]; [done|]. simpl.
  destruct (found name); simpl; [apply IH|done].
Qed.

(** C9. [instance_filter_exists] never raises. It looks the filters of the
    NICs up in order; at the first one libvirt does not find, it logs a line
    with that filter's name and returns [False], with nothing else changed;
    when every one is found it returns [True] and changes nothing. So it
    returns [True] exactly when the lookup succeeds for every NIC. *)
Theorem instance_filter_exists_result (w : World) (instance : Instance) (s : State) :
  NWFilterFirewall.instance_filter_exists w instance s
  = match List.find (fun name => negb (nwfilter_found w name))
            (map (nic_filter_name instance) (get_network_info w instance)) with
    | Some missing =>
        (Ok false, {| iptables := iptables s; instances := instances s;
                      nwfilters := nwfilters s;
                      LOG := LOG s ++ [not_found_line instance missing] |})
    | None => (Ok true, s)
    end
  ∧ (NWFilterFirewall.instance_filter_exists w instance s).1
    = Ok (forallb (nwfilter_found w)
            (map (nic_filter_name instance) (get_network_info w instance))).
Proof.
  unfold NWFilterFirewall.instance_filter_exists.
  rewrite filter_exists_loop_result, find_missing_forallb.
  split; [done|]. by destruct (List.find _ _).
Qed.

(** ** Preparing an instance without security groups *)

Lemma for_each_define_filters (w : World)
    (network_filters : list (string * list string)) (s : State) :
  (∀ xml, nwfilter_accepted w xml = true) →
  for_each network_filters (fun nc => NWFilterFirewall._define_filters w nc.1 nc.2) s
  = (Ok tt, {| iptables := iptables s; instances := instances s;
               nwfilters := nwfilters s
                 ++ map (fun nc => NWFilterFirewall._filter_container nc.1 nc.2)
                        network_filters;
               LOG := LOG s |}).
Proof.
  intros Hacc. revert s.
  induction network_filters as [|nc l IH]; intros s; simpl.
  - unfold ret. rewrite app_nil_r. by destruct s.
  - unfold bind at 1.
    unfold NWFilterFirewall._define_filters at 1, NWFilterFirewall._define_filter,
      nwfilterDefineXML.
    rewrite Hacc, IH. simpl. by rewrite <- app_assoc.
Qed.

(** A NIC id made from a MAC address is empty or starts with a hexadecimal
    digit. *)
Lemma remove_char_mac_head (m : string) :
  is_mac m = true →
  match remove_char ":" m with
  | EmptyString => True
  | String a _ => a ≠ "s"%char
  end.
Proof.
  induction m as [|a m IH]; simpl; [done|].
  intros [Ha Hm]%andb_prop. destruct (Ascii.eqb a ":"); [by apply IH|].
  intros ->. discriminate Ha.
Qed.

(** The document of a NIC filter is not one of the instance's
    security-group filter, whatever the children of the two. *)
Lemma nic_filter_not_secgroup (instance : Instance) (nm : Network * Mapping)
    (children children' : list string) :
  is_mac (mac nm.2) = true →
  NWFilterFirewall._filter_container
    (NWFilterFirewall._instance_filter_name instance None +:+ "-secgroup") children
  ≠ NWFilterFirewall._filter_container (nic_filter_name instance nm) children'.
Proof.
  intros Hmac%remove_char_mac_head.
  unfold NWFilterFirewall._filter_container, nic_filter_name,
    NWFilterFirewall._instance_filter_name. simpl.
  destruct (remove_char ":" (mac nm.2)) as [|a nic]; simpl.
  - rewrite !append_assoc.
    intros H. do 3 apply (inj (String.append _)) in H. discriminate H.
  - rewrite !append_assoc.
    intros H. do 3 apply (inj (String.append _)) in H.
    injection H as Ha _. by apply Hmac.
Qed.

(** Whatever libvirt accepts, the loop over the NIC filters defines some of
    them, from the first on, and nothing else. *)
Lemma for_each_define_filters_prefix (w : World)
    (network_filters : list (string * list string)) (s : State) :
  ∃ k,
    nwfilters (exec (for_each network_filters
                       (fun nc => NWFilterFirewall._define_filters w nc.1 nc.2)) s)
    = nwfilters s
      ++ take k (map (fun nc => NWFilterFirewall._filter_container nc.1 nc.2)
                     network_filters).
Proof.
  revert s. induction network_filters as [|nc l IH]; intros s.
  - exists 0%nat. simpl. by rewrite app_nil_r.
  - unfold exec. simpl. unfold bind at 1.
    unfold NWFilterFirewall._define_filters at 1, NWFilterFirewall._define_filter,
      nwfilterDefineXML.
    destruct (nwfilter_accepted w _).
    + match goal with |- context [for_each l ?f ?s'] =>
        destruct (IH s') as [k Hk] end.
      unfold exec in Hk. exists (S k). rewrite Hk. simpl.
      by rewrite <- app_assoc.
    + exists 0%nat. simpl. by rewrite app_nil_r.
Qed.

(** C10. When no security group is attached to the instance (and the MAC
    addresses are MAC addresses), the only filters
    [NWFilterFirewall.prepare_instance_filter] defines are filters of NICs,
    from the first on, and none of them is a document of the instance's
    security-group filter: if that filter was not defined before the call,
    it is not defined after it. Yet each NIC filter names it among its
    children. When libvirt accepts what it is given, the call returns after
    defining the filter of every NIC, in order. *)
Theorem prepare_without_security_groups (w : World) (instance : Instance)
    (network_info : option NetworkInfo) (s : State) :
  security_group_get_by_instance w (instance_id instance) = [] →
  Forall (fun nm => is_mac (mac nm.2) = true)
         (or_get_network_info w instance network_info) →
  let instance_secgroup_filter_name :=
    NWFilterFirewall._instance_filter_name instance None +:+ "-secgroup" in
  let network_filters :=
    NWFilterFirewall._create_network_filters w instance
      (or_get_network_info w instance network_info)
      instance_secgroup_filter_name in
  let defined :=
    map (fun nc => NWFilterFirewall._filter_container nc.1 nc.2) network_filters in
  let s' := exec (NWFilterFirewall.prepare_instance_filter w instance network_info) s in
  (∃ k, nwfilters s' = nwfilters s ++ take k defined)
  ∧ (∀ children,
       NWFilterFirewall._filter_container instance_secgroup_filter_name children
       ∉ nwfilters s →
       NWFilterFirewall._filter_container instance_secgroup_filter_name children
       ∉ nwfilters s')
  ∧ length defined = length (or_get_network_info w instance network_info)
  ∧ Forall (fun nc => instance_secgroup_filter_name ∈ nc.2) network_filters
  ∧ ((∀ xml, nwfilter_accepted w xml = true) →
     NWFilterFirewall.prepare_instance_filter w instance network_info s
     = (Ok tt, {| iptables := iptables s; instances := instances s;
                  nwfilters := nwfilters s ++ defined; LOG := LOG s |})).
Proof.
  intros Hgroups Hmac name network_filters defined s'.
  assert (∃ k, nwfilters s' = nwfilters s ++ take k defined) as Hprefix.
  { unfold s', exec, NWFilterFirewall.prepare_instance_filter.
    rewrite Hgroups. simpl. unfold bind at 1. simpl.
    apply for_each_define_filters_prefix. }
  split; [exact Hprefix|]. repeat split.
  - intros children Hold. destruct Hprefix as [k ->].
    intros [Hin|(i & Hin%list_elem_of_lookup_2 & _)%elem_of_take]%elem_of_app;
      [done|].
    unfold defined, network_filters, NWFilterFirewall._create_network_filters in Hin.
    rewrite <- list_fmap_compose in Hin.
    apply list_elem_of_fmap in Hin as (nm & Heq & Hnm).
    rewrite Forall_forall in Hmac.
    by apply (nic_filter_not_secgroup instance nm children _ (Hmac nm Hnm)) in Heq.
  - unfold defined, network_filters, NWFilterFirewall._create_network_filters.
    by rewrite !length_map.
  - unfold network_filters, NWFilterFirewall._create_network_filters.
    apply Forall_map, Forall_forall. intros nm _. simpl.
    apply list_elem_of_further, list_elem_of_here.
  - intros Hacc. unfold NWFilterFirewall.prepare_instance_filter.
    rewrite Hgroups. simpl. unfold bind at 1. simpl.
    by rewrite for_each_define_filters.
Qed.

Lemma prepare_without_security_groups_witness :
  security_group_get_by_instance Example.world_without_groups 1 = []
  ∧ is_mac (mac Example.mapping_a) = true
  ∧ NWFilterFirewall.prepare_instance_filter Example.world_without_groups
      Example.instance_1 None Example.fresh
    = (Ok tt,
       {| iptables := iptables Example.fresh; instances := instances Example.fresh;
          nwfilters :=
            ["<filter name='nova-instance-instance-00000001-aabbccddeeff' chain='root'>"
             +:+ "<filterref filter='nova-base'/>"
             +:+ "<filterref filter='nova-instance-instance-00000001-secgroup'/>"
             +:+ "</filter>"];
          LOG := LOG Example.fresh |}).
Proof.
  split; [reflexivity|]. split; [reflexivity|].
  refine (proj2 (proj2 (proj2 (proj2
            (prepare_without_security_groups Example.world_without_groups
               Example.instance_1 None Example.fresh eq_refl _))))
            (fun _ => eq_refl)).
  simpl. apply Forall_cons. split; [reflexivity|apply Forall_nil_2].
Defined.

(** ** Refreshing the chains of the tracked instances *)

Lemma staged_id s : staged (ipv4_filter (iptables s)) (ipv6_filter (iptables s)) s = s.
Proof. by destruct s as [[] ? ? ?]. Qed.

Lemma chain_rules_add_rules chain rs name t :
  chain_rules name (add_rules chain rs t)
  = chain_rules name t ++ (if decide (chain = name) then rs else []).
Proof.
  revert t. induction rs as [|r rs IH]; intros t; simpl.
  - destruct (decide _); by rewrite app_nil_r.
  - rewrite IH, chain_rules_add_rule. destruct (decide _); by rewrite <- app_assoc.
Qed.

Lemma for_each_add_rule_ipv4 chain rs s :
  for_each rs (fun rule => on_ipv4 (add_rule chain rule)) s
  = (Ok tt, staged (add_rules chain rs (ipv4_filter (iptables s)))
              (ipv6_filter (iptables s)) s).
Proof.
  revert s. induction rs as [|r rs IH]; intros s; simpl.
  - unfold ret. by rewrite staged_id.
  - unfold bind at 1. simpl. by rewrite IH.
Qed.

Lemma for_each_add_rule_ipv6 chain rs s :
  for_each rs (fun rule => on_ipv6 (add_rule chain rule)) s
  = (Ok tt, staged (ipv4_filter (iptables s))
              (add_rules chain rs (ipv6_filter (iptables s))) s).
Proof.
  revert s. induction rs as [|r rs IH]; intros s; simpl.
  - unfold ret. by rewrite staged_id.
  - unfold bind at 1. simpl. by rewrite IH.
Qed.

Lemma add_filters_for_instance_staged w instance network_info s :
  IptablesFirewallDriver.add_filters_for_instance w instance network_info s
  = (Ok tt, staged (add_filters_ipv4 w instance network_info (ipv4_filter (iptables s)))
              (add_filters_ipv6 w instance network_info (ipv6_filter (iptables s))) s).
Proof.
  unfold IptablesFirewallDriver.add_filters_for_instance, add_filters_ipv4,
    add_filters_ipv6, IptablesFirewallDriver._add_filters.
  destruct (instance_rules w instance (Some network_info)) as [r4 r6].
  destruct (IptablesFirewallDriver._filters_for_instance w _ network_info)
    as [f4 f6] eqn:Hf.
  unfold bind. destruct (use_ipv6 w); simpl.
  - rewrite !for_each_add_rule_ipv4. simpl.
    rewrite !for_each_add_rule_ipv6. simpl.
    rewrite !for_each_add_rule_ipv4. simpl.
    rewrite !for_each_add_rule_ipv6. simpl. done.
  - rewrite !for_each_add_rule_ipv4. simpl.
    rewrite !for_each_add_rule_ipv4. simpl. done.
Qed.

Lemma remove_filters_for_instance_staged w instance s :
  IptablesFirewallDriver.remove_filters_for_instance w instance s
  = (Ok tt, staged (remove_chain (IptablesFirewallDriver._instance_chain_name instance)
                      (ipv4_filter (iptables s)))
              (remove_filters_ipv6 w instance (ipv6_filter (iptables s))) s).
Proof.
  unfold IptablesFirewallDriver.remove_filters_for_instance, remove_filters_ipv6, bind.
  simpl. by destruct (use_ipv6 w).
Qed.

Lemma do_refresh_loop_staged w tracked network_info s :
  IptablesFirewallDriver.do_refresh_loop w tracked network_info s
  = (Ok tt,
     staged (refresh_tables w tracked network_info
               (ipv4_filter (iptables s), ipv6_filter (iptables s))).1
            (refresh_tables w tracked network_info
               (ipv4_filter (iptables s), ipv6_filter (iptables s))).2 s).
Proof.
  revert network_info s. induction tracked as [|instance rest IH];
    intros network_info s; simpl.
  - unfold ret. by rewrite staged_id.
  - unfold bind at 1. rewrite remove_filters_for_instance_staged.
    unfold bind at 1. rewrite add_filters_for_instance_staged.
    by rewrite IH.
Qed.

Lemma refresh_tables_app w pre post network_info t :
  refresh_tables w (pre ++ post) network_info t
  = refresh_tables w post (refresh_network_info w pre network_info)
      (refresh_tables w pre network_info t).
Proof.
  revert network_info t. induction pre as [|instance pre IH];
    intros network_info t; simpl; [done|]. apply IH.
Qed.

Lemma refresh_network_info_sticky w tracked n l :
  refresh_network_info w tracked (Some (n :: l)) = Some (n :: l).
Proof. induction tracked as [|instance tracked IH]; simpl; [done|apply IH]. Qed.

Lemma local_not_instance_chain instance :
  "local" ≠ IptablesFirewallDriver._instance_chain_name instance.
Proof. discriminate. Qed.

Lemma chain_rules_add_filters_ipv4 w instance network_info t :
  chain_rules (IptablesFirewallDriver._instance_chain_name instance)
    (add_filters_ipv4 w instance network_info
       (remove_chain (IptablesFirewallDriver._instance_chain_name instance) t))
  = (instance_rules w instance (Some network_info)).1.
Proof.
  unfold add_filters_ipv4. cbv zeta.
  rewrite !chain_rules_add_rules, chain_rules_add_chain, chain_rules_remove_chain.
  destruct (decide ("local" = _)) as [Heq|_];
    [by apply local_not_instance_chain in Heq|].
  by destruct (decide (_ = _)).
Qed.

(** The chain of the instance the loop visits last is the compilation of
    that instance's groups with the attachments the variable [network_info]
    holds by then. *)
Lemma refresh_last_chain w pre instance network_info s :
  chain_rules (IptablesFirewallDriver._instance_chain_name instance)
    (ipv4_filter (iptables
       (exec (IptablesFirewallDriver.do_refresh_loop w (pre ++ [instance]) network_info) s)))
  = (instance_rules w instance
       (Some (or_get_network_info w instance
                (refresh_network_info w pre network_info)))).1.
Proof.
  unfold exec. rewrite do_refresh_loop_staged. simpl.
  rewrite refresh_tables_app. simpl. apply chain_rules_add_filters_ipv4.
Qed.

(** Called without attachments, the loop takes those of the instance it
    visits first, when it has any, for every instance after it: the chain
    of the last one is compiled with the attachments of the first. *)
Lemma refresh_last_uses_first w first mid instance s :
  get_network_info w first ≠ [] →
  chain_rules (IptablesFirewallDriver._instance_chain_name instance)
    (ipv4_filter (iptables
       (exec (IptablesFirewallDriver.do_refresh_loop w
                (first :: mid ++ [instance]) None) s)))
  = (instance_rules w instance (Some (get_network_info w first))).1.
Proof.
  intros Hne. rewrite (app_comm_cons mid [instance] first), refresh_last_chain.
  simpl. destruct (get_network_info w first) as [|n l]; [done|].
  by rewrite refresh_network_info_sticky.
Qed.

(** [refresh_security_group_rules] stages the tables of the loop and, when
    the commit is accepted, commits them once. *)
Lemma refresh_commits_once w security_group network_info s :
  apply_accepted w = true →
  let t := refresh_tables w (map_to_list (instances s)).*2 network_info
             (ipv4_filter (iptables s), ipv6_filter (iptables s)) in
  IptablesFirewallDriver.refresh_security_group_rules w security_group network_info s
  = (Ok tt, {| iptables := {| ipv4_filter := t.1; ipv6_filter := t.2;
                              applied := applied (iptables s) ++ [(t.1, t.2)] |};
               instances := instances s; nwfilters := nwfilters s; LOG := LOG s |}).
Proof.
  intros Hacc t.
  unfold IptablesFirewallDriver.refresh_security_group_rules,
    IptablesFirewallDriver.do_refresh_security_group_rules,
    IptablesFirewallDriver.instances_values.
  unfold bind at 1. unfold bind at 1. rewrite do_refresh_loop_staged.
  unfold apply. by rewrite Hacc.
Qed.

(** C2, at two tracked instances on different networks.
    [refresh_security_group_rules], called without attachments, removes and
    rebuilds the chain of each tracked instance and commits once. But the
    instance it visits second gets the chain compiled with the attachments
    of the instance visited first: [inst-1] gets the DHCP rule of the
    gateway of instance 2, 10.0.1.1, where its own gateway is 10.0.0.1; and
    in the other order of the loop [inst-2] is compiled with the attachments
    of instance 1. *)
Theorem refresh_reuses_first_network_info :
  let w := Example.world [Example.rule_ssh] in
  let s := exec (IptablesFirewallDriver.refresh_security_group_rules w 1 None)
             (Example.two_prepared w) in
  (map_to_list (instances (Example.two_prepared w))).*2
  = [Example.instance_2; Example.instance_1]
  ∧ get_network_info w Example.instance_1 = [(Example.network_a, Example.mapping_a)]
  ∧ chain_rules "inst-1" (ipv4_filter (iptables s))
    = (instance_rules w Example.instance_1
         (Some [(Example.network_b, Example.mapping_b)])).1
  ∧ chain_rules "inst-1" (ipv4_filter (iptables s))
    = ["-m state --state INVALID -j DROP";
       "-m state --state ESTABLISHED,RELATED -j ACCEPT";
       "-s 10.0.1.1 -p udp --sport 67 --dport 68 -j ACCEPT";
       "-p tcp -s 0.0.0.0/0 --dport 22 -j ACCEPT";
       "-j $sg-fallback"]
  ∧ (instance_rules w Example.instance_1 None).1
    = ["-m state --state INVALID -j DROP";
       "-m state --state ESTABLISHED,RELATED -j ACCEPT";
       "-s 10.0.0.1 -p udp --sport 67 --dport 68 -j ACCEPT";
       "-p tcp -s 0.0.0.0/0 --dport 22 -j ACCEPT";
       "-j $sg-fallback"]
  ∧ chain_rules "inst-2"
      (ipv4_filter (iptables
         (exec (IptablesFirewallDriver.do_refresh_loop w
                  [Example.instance_1; Example.instance_2] None)
            (Example.two_prepared w))))
    = (instance_rules w Example.instance_2
         (Some [(Example.network_a, Example.mapping_a)])).1
  ∧ length (applied (iptables s)) = S (length (applied (iptables (Example.two_prepared w)))).
Proof. vm_compute. repeat split. Qed.

(** * Further properties *)

(** ** The structure of the compiled lists *)

Lemma str_inj (a b : Z) : str a = str b → a = b.
Proof.
  unfold str. intros H. apply DecimalZ.to_int_inj.
  assert (∀ z, NilZero.int_of_string (NilZero.string_of_int (Z.to_int z))
               = Some (Z.to_int z)) as Hisi.
  { intros z. apply NilZero.isi.
    - destruct z; simpl; try discriminate.
      intros [= Hp]. by apply DecimalPos.Unsigned.to_uint_nonnil in Hp.
    - destruct z; simpl; try discriminate.
      intros [= Hp]. by apply DecimalPos.Unsigned.to_uint_nonnil in Hp. }
  pose proof (Hisi a) as Ha. rewrite H, Hisi in Ha. by injection Ha.
Qed.

Lemma instance_rule_step_directives w acc rule :
  instance_rule_step w acc rule
  = (acc.1 ++ rule_directives w true [rule], acc.2 ++ rule_directives w false [rule]).
Proof.
  unfold instance_rule_step, rule_directives. simpl.
  destruct (truthy (rule_cidr rule)) as [c|]; simpl.
  - destruct (get_ip_version w c =? 4); simpl; by rewrite !app_nil_r.
  - rewrite !app_nil_r. by destruct acc.
Qed.

Lemma rule_directives_app w v4 l1 l2 :
  rule_directives w v4 (l1 ++ l2) = rule_directives w v4 l1 ++ rule_directives w v4 l2.
Proof. unfold rule_directives. by rewrite flat_map_app. Qed.

Lemma rule_directives_cons w v4 rule rules :
  rule_directives w v4 (rule :: rules)
  = rule_directives w v4 [rule] ++ rule_directives w v4 rules.
Proof. apply (rule_directives_app w v4 [rule] rules). Qed.

Lemma fold_rule_step_directives w rules acc :
  fold_left (instance_rule_step w) rules acc
  = (acc.1 ++ rule_directives w true rules, acc.2 ++ rule_directives w false rules).
Proof.
  revert acc. induction rules as [|rule rules IH]; intros acc; cbn [fold_left].
  - unfold rule_directives. simpl. rewrite !app_nil_r. by destruct acc.
  - rewrite IH, instance_rule_step_directives.
    rewrite !(rule_directives_cons w _ rule rules). cbn [fst snd].
    by rewrite !app_assoc.
Qed.

Lemma fold_group_step_directives w groups acc :
  fold_left (instance_group_step w) groups acc
  = (acc.1 ++ rule_directives w true
                (flat_map (fun g => security_group_rule_get_by_security_group w (sg_id g)) groups),
     acc.2 ++ rule_directives w false
                (flat_map (fun g => security_group_rule_get_by_security_group w (sg_id g)) groups)).
Proof.
  revert acc. induction groups as [|g groups IH]; intros acc;
    cbn [fold_left flat_map].
  - unfold rule_directives. simpl. rewrite !app_nil_r. by destruct acc.
  - rewrite IH. unfold instance_group_step. rewrite fold_rule_step_directives.
    cbn [fst snd]. by rewrite !rule_directives_app, !app_assoc.
Qed.

(** X1. Each of the two lists of [instance_rules] is: the fixed rules of its
    IP version for the attachments, then the directives of the rules of the
    attached groups that have a cidr of that version (version 4 for the
    first list, any other version for the second), in the order in which
    the groups and their rules are read, then the jump to the fallback
    chain; and nothing else, whatever [use_ipv6] is. *)
Theorem instance_rules_structure (w : World) (instance : Instance)
    (network_info : option NetworkInfo) :
  instance_rules w instance network_info
  = (ipv4_prefix w (or_get_network_info w instance network_info)
     ++ rule_directives w true (attached_rules w instance)
     ++ ["-j $sg-fallback"],
     ipv6_prefix w (or_get_network_info w instance network_info)
     ++ rule_directives w false (attached_rules w instance)
     ++ ["-j $sg-fallback"]).
Proof.
  unfold instance_rules, attached_rules. rewrite fold_group_step_directives.
  simpl. by rewrite <- !app_assoc.
Qed.

(** ** The filter documents and their definition *)

Lemma append_nil_r (s : string) : s +:+ "" = s.
Proof.
  induction s as [|a s IH]; [done|].
  change (String a (s +:+ "") = String a s). by rewrite IH.
Qed.

Lemma join_empty_cons (x : string) (l : list string) :
  join "" (x :: l) = x +:+ join "" l.
Proof. destruct l; simpl; [by rewrite append_nil_r|done]. Qed.

Lemma rule_to_xml_result w rule :
  if no_v6protocol w rule
  then NWFilterFirewall.rule_to_xml w rule = Raise KeyError
  else ∃ element, NWFilterFirewall.rule_to_xml w rule = Ok element.
Proof.
  unfold no_v6protocol, NWFilterFirewall.rule_to_xml.
  destruct (truthy (rule_cidr rule)) as [c|]; [|by eexists].
  cbv zeta. destruct (use_ipv6 w && (get_ip_version w c =? 6)); simpl.
  - destruct (get_net_and_prefixlen w c) as [net prefixlen].
    unfold NWFilterFirewall.v6protocol.
    destruct (String.eqb (rule_protocol rule) "tcp"); simpl; [by eexists|].
    destruct (String.eqb (rule_protocol rule) "udp"); simpl; [by eexists|].
    destruct (String.eqb (rule_protocol rule) "icmp"); simpl; [by eexists|done].
  - destruct (get_net_and_mask w c) as [net mask]. by eexists.
Qed.

Lemma rules_to_xml_result w rule_xml rules :
  if existsb (no_v6protocol w) rules
  then NWFilterFirewall.rules_to_xml w rule_xml rules = Raise KeyError
  else ∃ elements,
         Forall2 (fun rule element => NWFilterFirewall.rule_to_xml w rule = Ok element)
           rules elements
         ∧ NWFilterFirewall.rules_to_xml w rule_xml rules
           = Ok (rule_xml +:+ join "" elements).
Proof.
  revert rule_xml. induction rules as [|rule rules IH]; intros rule_xml; simpl.
  - exists []. split; [constructor|]. simpl. by rewrite append_nil_r.
  - pose proof (rule_to_xml_result w rule) as Hrule.
    destruct (no_v6protocol w rule); simpl.
    + by rewrite Hrule.
    + destruct Hrule as [element Hrule]. rewrite Hrule. simpl.
      specialize (IH (rule_xml +:+ element)).
      destruct (existsb (no_v6protocol w) rules); [done|].
      destruct IH as (elements & Hall & ->).
      exists (element :: elements). split; [by constructor|].
      by rewrite join_empty_cons, append_assoc.
Qed.


(** X2. [security_group_to_nwfilter_xml] raises [KeyError] exactly when a
    rule of the group has a cidr of IP version 6, with [use_ipv6] set, and a
    protocol other than tcp, udp and icmp. Otherwise it returns the filter
    named after the group, on the chain [root] with [use_ipv6] and [ipv4]
    without, that holds one rule element per rule of the group, in order. *)
Theorem security_group_to_nwfilter_xml_result (w : World) (security_group_id : Z) :
  let rules := sg_rules (security_group_get w security_group_id) in
  if existsb (no_v6protocol w) rules
  then NWFilterFirewall.security_group_to_nwfilter_xml w security_group_id
       = Raise KeyError
  else
    ∃ elements,
      Forall2 (fun rule element => NWFilterFirewall.rule_to_xml w rule = Ok element)
        rules elements
      ∧ NWFilterFirewall.security_group_to_nwfilter_xml w security_group_id
        = Ok ("<filter name='nova-secgroup-" +:+ str security_group_id +:+ "' chain='"
              +:+ (if use_ipv6 w then "root" else "ipv4") +:+ "'>"
              +:+ join "" elements +:+ "</filter>").
Proof.
  intros rules. unfold NWFilterFirewall.security_group_to_nwfilter_xml. fold rules.
  pose proof (rules_to_xml_result w "" rules) as H.
  destruct (existsb (no_v6protocol w) rules).
  - by rewrite H.
  - destruct H as (elements & Hall & ->). exists elements. split; [done|].
    simpl. destruct (use_ipv6 w); by rewrite ?append_assoc.
Qed.

(** X3. For a tcp or udp rule with a cidr, the rule element of the filter
    document always gives both [dstportstart] and [dstportend], also when
    the two ports are equal. The element is [tcp-ipv6] or [udp-ipv6] with
    the prefix length as mask for a v6 cidr under [use_ipv6], and the
    protocol with the net mask otherwise. *)
Theorem nwfilter_tcp_udp_ports (w : World) (rule : Rule) (c : string) :
  rule_protocol rule = "tcp" ∨ rule_protocol rule = "udp" →
  truthy (rule_cidr rule) = Some c →
  NWFilterFirewall.rule_to_xml w rule
  = Ok ("<rule action='accept' direction='in' priority='300'>"
        +:+ (if use_ipv6 w && (get_ip_version w c =? 6)
             then "<" +:+ rule_protocol rule +:+ "-ipv6 srcipaddr='"
                  +:+ (get_net_and_prefixlen w c).1
                  +:+ "' srcipmask='" +:+ str (get_net_and_prefixlen w c).2 +:+ "' "
             else "<" +:+ rule_protocol rule +:+ " srcipaddr='"
                  +:+ (get_net_and_mask w c).1
                  +:+ "' srcipmask='" +:+ (get_net_and_mask w c).2 +:+ "' ")
        +:+ "dstportstart='" +:+ str (from_port rule)
        +:+ "' dstportend='" +:+ str (to_port rule) +:+ "' "
        +:+ "/>" +:+ LF +:+ "</rule>" +:+ LF).
Proof.
  intros Hp Hc. unfold NWFilterFirewall.rule_to_xml. rewrite Hc. cbv zeta.
  destruct (use_ipv6 w && (get_ip_version w c =? 6)).
  - destruct (get_net_and_prefixlen w c) as [net prefixlen].
    destruct Hp as [-> | ->]; simpl; by rewrite ?append_assoc.
  - destruct (get_net_and_mask w c) as [net mask].
    destruct Hp as [-> | ->]; simpl; by rewrite ?append_assoc.
Qed.

Lemma nwfilter_tcp_udp_ports_witness :
  rule_protocol Example.rule_ssh = "tcp"
  ∧ NWFilterFirewall.rule_to_xml (Example.world [Example.rule_ssh]) Example.rule_ssh
    = Ok ("<rule action='accept' direction='in' priority='300'>"
          +:+ "<tcp srcipaddr='0.0.0.0' srcipmask='0.0.0.0' "
          +:+ "dstportstart='22' dstportend='22' />" +:+ LF +:+ "</rule>" +:+ LF).
Proof.
  split; [reflexivity|].
  exact (nwfilter_tcp_udp_ports (Example.world [Example.rule_ssh]) Example.rule_ssh
           "0.0.0.0/0" (or_introl eq_refl) eq_refl).
Defined.

Lemma defining_nil s : defining [] s = s.
Proof. unfold defining. rewrite app_nil_r. by destruct s. Qed.

Lemma defining_app l1 l2 s : defining l2 (defining l1 s) = defining (l1 ++ l2) s.
Proof. unfold defining. simpl. by rewrite app_assoc. Qed.
















(** ** The chain tables under the operations of the driver *)

Section chain_tree.
Import IptablesFirewallDriver.

Lemma instance_chain_names_holds (i j : Instance) :
  (_instance_chain_name i = _instance_chain_name j ↔ instance_id i = instance_id j)
  ∧ _instance_chain_name i ≠ "local"
  ∧ _instance_chain_name i ≠ "sg-fallback".
Proof.
  unfold _instance_chain_name. repeat split; try discriminate.
  - intros H. by apply (inj (String.append _)), str_inj in H.
  - by intros ->.
Qed.

(** X10. Two instances have the same chain name exactly when they have the
    same id, and the chain of an instance is never [local] nor
    [sg-fallback]. *)
Theorem instance_chain_names (i j : Instance) :
  (_instance_chain_name i = _instance_chain_name j ↔ instance_id i = instance_id j)
  ∧ _instance_chain_name i ≠ "local"
  ∧ _instance_chain_name i ≠ "sg-fallback".
Proof.
  unfold _instance_chain_name. repeat split; try discriminate.
  - intros H. by apply (inj (String.append _)), str_inj in H.
  - by intros ->.
Qed.

Lemma chain_rules_remove_chain_ne name c t :
  name ≠ c → chain_rules name (remove_chain c t) = chain_rules name t.
Proof.
  intros Hne. unfold chain_rules, remove_chain. simpl. f_equal.
  induction (rules t) as [|r l IH]; [done|].
  rewrite !filter_cons. destruct (decide (r.1 ≠ c)) as [H1|H1].
  - rewrite filter_cons. destruct (decide (r.1 = name)); by rewrite IH.
  - destruct (decide (r.1 = name)) as [H2|H2]; [|done].
    exfalso. apply H1. congruence.
Qed.

Lemma chain_rules_add_filters_ipv4_ne w instance network_info name t :
  name ≠ _instance_chain_name instance → name ≠ "local" →
  chain_rules name (add_filters_ipv4 w instance network_info t) = chain_rules name t.
Proof.
  intros H1 H2. unfold add_filters_ipv4. cbv zeta.
  rewrite !chain_rules_add_rules, chain_rules_add_chain.
  destruct (decide (_ = name)); [done|]. destruct (decide (_ = name)); [done|].
  by rewrite !app_nil_r.
Qed.

Lemma chain_rules_add_filters_ipv6_ne w instance network_info name t :
  name ≠ _instance_chain_name instance → name ≠ "local" →
  chain_rules name (add_filters_ipv6 w instance network_info t) = chain_rules name t.
Proof.
  intros H1 H2. unfold add_filters_ipv6. cbv zeta. destruct (use_ipv6 w); [|done].
  rewrite !chain_rules_add_rules, chain_rules_add_chain.
  destruct (decide (_ = name)); [done|]. destruct (decide (_ = name)); [done|].
  by rewrite !app_nil_r.
Qed.

Lemma chain_rules_remove_filters_ipv6_ne w instance name t :
  name ≠ _instance_chain_name instance →
  chain_rules name (remove_filters_ipv6 w instance t) = chain_rules name t.
Proof.
  intros H. unfold remove_filters_ipv6. destruct (use_ipv6 w); [|done].
  by apply chain_rules_remove_chain_ne.
Qed.

Lemma chains_add_rules chain rs t : chains (add_rules chain rs t) = chains t.
Proof. revert t. induction rs as [|r rs IH]; intros t; simpl; [done|]. by rewrite IH. Qed.

(** The chains of the instances of [tracked] and [local] apart, the loop of
    a refresh leaves every chain as it is. *)
Lemma refresh_tables_chain_ne w tracked network_info t name :
  name ≠ "local" →
  Forall (fun instance => name ≠ _instance_chain_name instance) tracked →
  chain_rules name (refresh_tables w tracked network_info t).1 = chain_rules name t.1
  ∧ chain_rules name (refresh_tables w tracked network_info t).2 = chain_rules name t.2.
Proof.
  intros Hlocal Hall. revert network_info t.
  induction Hall as [|instance tracked Hne Hall IH]; intros network_info t; [done|].
  cbn [refresh_tables]. cbv zeta.
  destruct (IH (Some (or_get_network_info w instance network_info))
              (add_filters_ipv4 w instance (or_get_network_info w instance network_info)
                 (remove_chain (_instance_chain_name instance) t.1),
               add_filters_ipv6 w instance (or_get_network_info w instance network_info)
                 (remove_filters_ipv6 w instance t.2))) as [-> ->].
  cbn [fst snd]. split.
  - by rewrite chain_rules_add_filters_ipv4_ne, chain_rules_remove_chain_ne.
  - by rewrite chain_rules_add_filters_ipv6_ne, chain_rules_remove_filters_ipv6_ne.
Qed.

Lemma chain_rules_add_filters_ipv6 w instance network_info t :
  use_ipv6 w = true →
  chain_rules (_instance_chain_name instance)
    (add_filters_ipv6 w instance network_info (remove_filters_ipv6 w instance t))
  = (instance_rules w instance (Some network_info)).2.
Proof.
  intros Hon. unfold add_filters_ipv6, remove_filters_ipv6. rewrite Hon. cbv zeta.
  rewrite !chain_rules_add_rules, chain_rules_add_chain, chain_rules_remove_chain.
  destruct (decide ("local" = _)) as [Heq|_];
    [by apply local_not_instance_chain in Heq|].
  by destruct (decide (_ = _)).
Qed.

(** The chain of a tracked instance after the loop, ids being distinct: the
    compilation of its groups with the attachments the variable
    [network_info] holds when the loop reaches it. *)
Lemma refresh_tables_chain w pre instance post network_info t :
  NoDup (map instance_id (pre ++ instance :: post)) →
  let ni := or_get_network_info w instance (refresh_network_info w pre network_info) in
  chain_rules (_instance_chain_name instance)
    (refresh_tables w (pre ++ instance :: post) network_info t).1
  = (instance_rules w instance (Some ni)).1
  ∧ (use_ipv6 w = true →
     chain_rules (_instance_chain_name instance)
       (refresh_tables w (pre ++ instance :: post) network_info t).2
     = (instance_rules w instance (Some ni)).2).
Proof.
  intros Hnd ni. rewrite refresh_tables_app. cbn [refresh_tables]. cbv zeta.
  match goal with |- chain_rules _ (refresh_tables _ _ ?ni' ?t').1 = _ ∧ _ =>
    destruct (refresh_tables_chain_ne w post ni' t' (_instance_chain_name instance))
      as [-> ->] end.
  - apply (instance_chain_names_holds instance instance).
  - rewrite map_app, map_cons in Hnd.
    apply NoDup_app in Hnd as (_ & _ & Hnd). apply NoDup_cons in Hnd as [Hnotin _].
    apply Forall_forall. intros j Hj Heq.
    apply (instance_chain_names_holds instance j) in Heq. apply Hnotin. rewrite Heq.
    apply list_elem_of_fmap. by exists j.
  - cbn [fst snd]. split; [apply chain_rules_add_filters_ipv4|].
    intros Hon. by apply chain_rules_add_filters_ipv6.
Qed.

Lemma tracked_values_NoDup s :
  tracked_by_id s → NoDup (map instance_id (map_to_list (instances s)).*2).
Proof.
  intros Hid.
  assert (map instance_id (map_to_list (instances s)).*2 = (map_to_list (instances s)).*1)
    as ->; [|apply NoDup_fst_map_to_list].
  assert (Forall (fun kv => instance_id kv.2 = kv.1) (map_to_list (instances s))) as H.
  { apply Forall_forall. intros [k v] Hkv. apply elem_of_map_to_list in Hkv.
    by apply Hid. }
  induction H as [|kv l Hkv H IH]; [done|]. csimpl. rewrite Hkv. f_equal. apply IH.
Qed.

Lemma prepare_instance_filter_eq w instance network_info s :
  let ni := or_get_network_info w instance network_info in
  let t4 := add_filters_ipv4 w instance ni (ipv4_filter (iptables s)) in
  let t6 := add_filters_ipv6 w instance ni (ipv6_filter (iptables s)) in
  prepare_instance_filter w instance network_info s
  = if apply_accepted w
    then (Ok tt,
          {| iptables := {| ipv4_filter := t4; ipv6_filter := t6;
                            applied := applied (iptables s) ++ [(t4, t6)] |};
             instances := <[instance_id instance := instance]> (instances s);
             nwfilters := nwfilters s; LOG := LOG s |})
    else (Raise ApplyError,
          {| iptables := {| ipv4_filter := t4; ipv6_filter := t6;
                            applied := applied (iptables s) |};
             instances := <[instance_id instance := instance]> (instances s);
             nwfilters := nwfilters s; LOG := LOG s |}).
Proof.
  intros ni t4 t6. unfold prepare_instance_filter. fold ni.
  unfold bind at 1. unfold instances_setitem at 1.
  unfold bind at 1. rewrite add_filters_for_instance_staged.
  unfold apply. by destruct (apply_accepted w).
Qed.

Lemma refresh_security_group_rules_eq w security_group network_info s :
  let t := refresh_tables w (map_to_list (instances s)).*2 network_info
             (ipv4_filter (iptables s), ipv6_filter (iptables s)) in
  refresh_security_group_rules w security_group network_info s
  = if apply_accepted w
    then (Ok tt,
          {| iptables := {| ipv4_filter := t.1; ipv6_filter := t.2;
                            applied := applied (iptables s) ++ [(t.1, t.2)] |};
             instances := instances s; nwfilters := nwfilters s; LOG := LOG s |})
    else (Raise ApplyError, staged t.1 t.2 s).
Proof.
  intros t.
  unfold refresh_security_group_rules, do_refresh_security_group_rules,
    instances_values.
  unfold bind at 1. unfold bind at 1. rewrite do_refresh_loop_staged.
  unfold apply. by destruct (apply_accepted w).
Qed.

Lemma unfilter_instance_eq w instance s :
  unfilter_instance w instance s
  = match instances s !! instance_id instance with
    | Some _ =>
        let t4 := remove_chain (_instance_chain_name instance)
                    (ipv4_filter (iptables s)) in
        let t6 := remove_filters_ipv6 w instance (ipv6_filter (iptables s)) in
        if apply_accepted w
        then (Ok tt,
              {| iptables := {| ipv4_filter := t4; ipv6_filter := t6;
                                applied := applied (iptables s) ++ [(t4, t6)] |};
                 instances := delete (instance_id instance) (instances s);
                 nwfilters := nwfilters s; LOG := LOG s |})
        else (Raise ApplyError,
              {| iptables := {| ipv4_filter := t4; ipv6_filter := t6;
                                applied := applied (iptables s) |};
                 instances := delete (instance_id instance) (instances s);
                 nwfilters := nwfilters s; LOG := LOG s |})
    | None =>
        (Ok tt, {| iptables := iptables s; instances := instances s;
                   nwfilters := nwfilters s;
                   LOG := LOG s ++ [not_filtered_line instance] |})
    end.
Proof.
  destruct (instances s !! instance_id instance) as [tracked|] eqn:H.
  - unfold unfilter_instance, bind, instances_pop, remove_filters_for_instance,
      remove_filters_ipv6, apply. simpl. rewrite H.
    by destruct (use_ipv6 w), (apply_accepted w).
  - by apply unfilter_instance_not_tracked.
Qed.


Lemma exec_refresh_tables w security_group network_info s :
  ipv4_filter (iptables (exec (refresh_security_group_rules w security_group network_info) s))
  = (refresh_tables w (map_to_list (instances s)).*2 network_info
       (ipv4_filter (iptables s), ipv6_filter (iptables s))).1
  ∧ ipv6_filter (iptables (exec (refresh_security_group_rules w security_group network_info) s))
    = (refresh_tables w (map_to_list (instances s)).*2 network_info
         (ipv4_filter (iptables s), ipv6_filter (iptables s))).2.
Proof.
  unfold exec. rewrite refresh_security_group_rules_eq.
  by destruct (apply_accepted w).
Qed.

Lemma tracked_split s key instance :
  instances s !! key = Some instance →
  ∃ pre post, (map_to_list (instances s)).*2 = pre ++ instance :: post.
Proof.
  intros H. apply list_elem_of_split, list_elem_of_fmap.
  exists (key, instance). split; [done|]. by apply elem_of_map_to_list.
Qed.

(** X18. Called with a non-empty list of attachments,
    [refresh_security_group_rules] rebuilds the chain of every tracked
    instance as the compilation of that instance's groups with the
    attachments of the call: the v4 chain holds exactly the v4 list and,
    with [use_ipv6], the v6 chain exactly the v6 list. *)
Theorem refresh_with_network_info (w : World) (security_group : Z)
    (n : Network * Mapping) (l : NetworkInfo) (s : State)
    (key : Z) (instance : Instance) :
  tracked_by_id s →
  instances s !! key = Some instance →
  let s' := exec (refresh_security_group_rules w security_group (Some (n :: l))) s in
  chain_rules (_instance_chain_name instance) (ipv4_filter (iptables s'))
  = (instance_rules w instance (Some (n :: l))).1
  ∧ (use_ipv6 w = true →
     chain_rules (_instance_chain_name instance) (ipv6_filter (iptables s'))
     = (instance_rules w instance (Some (n :: l))).2).
Proof.
  intros Hid Hin s'. unfold s'.
  destruct (exec_refresh_tables w security_group (Some (n :: l)) s) as [-> ->].
  destruct (tracked_split s key instance Hin) as (pre & post & Hsplit).
  pose proof (tracked_values_NoDup s Hid) as Hnd. rewrite Hsplit in Hnd |- *.
  pose proof (refresh_tables_chain w pre instance post (Some (n :: l))
                (ipv4_filter (iptables s), ipv6_filter (iptables s)) Hnd) as H.
  cbv zeta in H. by rewrite refresh_network_info_sticky in H.
Qed.

Lemma refresh_with_network_info_witness :
  instances (Example.two_prepared (Example.world [Example.rule_ssh])) !! 2
  = Some Example.instance_2
  ∧ chain_rules "inst-2"
      (ipv4_filter (iptables
         (exec (IptablesFirewallDriver.refresh_security_group_rules
                  (Example.world [Example.rule_ssh]) 1
                  (Some [(Example.network_a, Example.mapping_a)]))
            (Example.two_prepared (Example.world [Example.rule_ssh])))))
    = ["-m state --state INVALID -j DROP";
       "-m state --state ESTABLISHED,RELATED -j ACCEPT";
       "-s 10.0.0.1 -p udp --sport 67 --dport 68 -j ACCEPT";
       "-p tcp -s 0.0.0.0/0 --dport 22 -j ACCEPT";
       "-j $sg-fallback"].
Proof.
  assert (tracked_by_id (Example.two_prepared (Example.world [Example.rule_ssh]))) as H
    by (apply (bool_decide_unpack _); vm_compute; exact I).
  assert (instances (Example.two_prepared (Example.world [Example.rule_ssh])) !! 2
          = Some Example.instance_2) as H2 by (vm_compute; reflexivity).
  split; [exact H2|].
  exact (proj1 (refresh_with_network_info (Example.world [Example.rule_ssh]) 1
                  (Example.network_a, Example.mapping_a) []
                  (Example.two_prepared (Example.world [Example.rule_ssh]))
                  2 Example.instance_2 H H2)).
Defined.



Lemma instance_rules_get_network_info w instance :
  instance_rules w instance (Some (get_network_info w instance))
  = instance_rules w instance None.
Proof.
  unfold instance_rules, or_get_network_info.
  by destruct (get_network_info w instance).
Qed.

(** X20. When one instance is tracked, [refresh_security_group_rules] called
    without attachments rebuilds its v4 chain as exactly what
    [instance_rules] compiles for it. *)
Theorem refresh_single_instance (w : World) (security_group : Z) (s : State)
    (key : Z) (instance : Instance) :
  instances s = {[ key := instance ]} →
  chain_rules (_instance_chain_name instance)
    (ipv4_filter (iptables (exec (refresh_security_group_rules w security_group None) s)))
  = (instance_rules w instance None).1.
Proof.
  intros Hs. destruct (exec_refresh_tables w security_group None s) as [-> _].
  rewrite Hs, map_to_list_singleton. cbn [fmap list_fmap snd refresh_tables]. cbv zeta.
  cbn [fst]. rewrite chain_rules_add_filters_ipv4.
  change (or_get_network_info w instance None) with (get_network_info w instance).
  by rewrite instance_rules_get_network_info.
Qed.

Lemma refresh_single_instance_witness :
  instances (Example.one_prepared (Example.world [Example.rule_ssh]))
  = {[ 1 := Example.instance_1 ]}
  ∧ chain_rules "inst-1"
      (ipv4_filter (iptables
         (exec (IptablesFirewallDriver.refresh_security_group_rules
                  (Example.world [Example.rule_ssh]) 1 None)
            (Example.one_prepared (Example.world [Example.rule_ssh])))))
    = (instance_rules (Example.world [Example.rule_ssh]) Example.instance_1 None).1.
Proof.
  assert (instances (Example.one_prepared (Example.world [Example.rule_ssh]))
          = {[ 1 := Example.instance_1 ]}) as H by (vm_compute; reflexivity).
  split; [exact H|].
  exact (refresh_single_instance (Example.world [Example.rule_ssh]) 1
           (Example.one_prepared (Example.world [Example.rule_ssh]))
           1 Example.instance_1 H).
Defined.

Lemma chains_add_filters_ipv4 w instance network_info t :
  chains (add_filters_ipv4 w instance network_info t)
  = {[ _instance_chain_name instance ]} ∪ chains t.
Proof. unfold add_filters_ipv4. cbv zeta. by rewrite !chains_add_rules. Qed.





(** X12. After [IptablesFirewallDriver.prepare_instance_filter] the instance
    is tracked, whether the call returned or raised. When the commit is
    accepted the call returns and the staged tables are the last committed
    ones; when it is rejected the call raises [ApplyError] and nothing is
    committed. *)
Theorem prepare_instance_filter_result (w : World) (instance : Instance)
    (network_info : option NetworkInfo) (s : State) :
  let r := (prepare_instance_filter w instance network_info s).1 in
  let s' := exec (prepare_instance_filter w instance network_info) s in
  instances s' !! instance_id instance = Some instance
  ∧ if apply_accepted w
    then r = Ok tt
         ∧ applied (iptables s')
           = applied (iptables s)
             ++ [(ipv4_filter (iptables s'), ipv6_filter (iptables s'))]
    else r = Raise ApplyError ∧ applied (iptables s') = applied (iptables s).
Proof.
  intros r s'. unfold r, s', exec. rewrite prepare_instance_filter_eq.
  destruct (apply_accepted w); cbn [fst snd instances];
    by rewrite lookup_insert_eq.
Qed.

Lemma chains_refresh_tables w tracked network_info t name :
  Forall (fun instance => name ≠ _instance_chain_name instance) tracked →
  name ∈ chains t.1 → name ∈ chains (refresh_tables w tracked network_info t).1.
Proof.
  intros Hall. revert network_info t.
  induction Hall as [|instance tracked Hne Hall IH]; intros network_info t Hin;
    [done|].
  cbn [refresh_tables]. cbv zeta. apply IH. cbn [fst].
  rewrite chains_add_filters_ipv4. apply elem_of_union_r.
  unfold remove_chain. cbn [chains]. apply elem_of_difference. split; [done|].
  by intros ->%elem_of_singleton.
Qed.

(** X14. [prepare_instance_filter], [unfilter_instance] and
    [refresh_security_group_rules] leave the rules of the chain
    [sg-fallback] as they are in both tables, and the chain in the v4 table
    when it was there. *)
Theorem fallback_chain_kept (w : World) (instance : Instance) (security_group : Z)
    (network_info : option NetworkInfo) (s : State) :
  let kept (s' : State) :=
    chain_rules "sg-fallback" (ipv4_filter (iptables s'))
    = chain_rules "sg-fallback" (ipv4_filter (iptables s))
    ∧ chain_rules "sg-fallback" (ipv6_filter (iptables s'))
      = chain_rules "sg-fallback" (ipv6_filter (iptables s))
    ∧ ("sg-fallback" ∈ chains (ipv4_filter (iptables s)) →
       "sg-fallback" ∈ chains (ipv4_filter (iptables s'))) in
  kept (exec (prepare_instance_filter w instance network_info) s)
  ∧ kept (exec (unfilter_instance w instance) s)
  ∧ kept (exec (refresh_security_group_rules w security_group network_info) s).
Proof.
  intros kept. unfold kept.
  assert ("sg-fallback" ≠ _instance_chain_name instance) as Hne.
  { intros H. by apply (instance_chain_names_holds instance instance). }
  assert (∀ tracked : list Instance,
            Forall (fun i => "sg-fallback" ≠ _instance_chain_name i) tracked) as Hall.
  { intros tracked. apply Forall_forall. intros i _ H.
    by apply (instance_chain_names_holds i i). }
  split; [|split].
  - unfold exec. rewrite prepare_instance_filter_eq.
    destruct (apply_accepted w); cbn [snd iptables ipv4_filter ipv6_filter];
      (split; [by apply chain_rules_add_filters_ipv4_ne|
               split; [by apply chain_rules_add_filters_ipv6_ne|]]);
      intros Hin; rewrite chains_add_filters_ipv4; by apply elem_of_union_r.
  - unfold exec. rewrite unfilter_instance_eq.
    destruct (instances s !! instance_id instance); [|done].
    destruct (apply_accepted w); cbn [snd iptables ipv4_filter ipv6_filter];
      (split; [by apply chain_rules_remove_chain_ne|
               split; [by apply chain_rules_remove_filters_ipv6_ne|]]);
      intros Hin; unfold remove_chain; cbn [chains]; apply elem_of_difference;
      (split; [done|]); by intros Heq%elem_of_singleton.
  - destruct (exec_refresh_tables w security_group network_info s) as [-> ->].
    destruct (refresh_tables_chain_ne w (map_to_list (instances s)).*2 network_info
                (ipv4_filter (iptables s), ipv6_filter (iptables s)) "sg-fallback")
      as [-> ->]; [done|apply Hall|].
    split; [done|]. split; [done|]. intros Hin.
    by apply chains_refresh_tables.
Qed.

Lemma refresh_tables_ipv6_off w tracked network_info t :
  use_ipv6 w = false → (refresh_tables w tracked network_info t).2 = t.2.
Proof.
  intros Hoff. revert network_info t.
  induction tracked as [|instance tracked IH]; intros network_info t; [done|].
  cbn [refresh_tables]. cbv zeta. rewrite IH. cbn [snd].
  unfold add_filters_ipv6, remove_filters_ipv6. by rewrite Hoff.
Qed.

(** X15. With [use_ipv6] off, [prepare_instance_filter],
    [unfilter_instance] and [refresh_security_group_rules] leave the v6
    table as it is. *)
Theorem ipv6_table_untouched (w : World) (instance : Instance) (security_group : Z)
    (network_info : option NetworkInfo) (s : State) :
  use_ipv6 w = false →
  ipv6_filter (iptables (exec (prepare_instance_filter w instance network_info) s))
  = ipv6_filter (iptables s)
  ∧ ipv6_filter (iptables (exec (unfilter_instance w instance) s))
    = ipv6_filter (iptables s)
  ∧ ipv6_filter (iptables
      (exec (refresh_security_group_rules w security_group network_info) s))
    = ipv6_filter (iptables s).
Proof.
  intros Hoff. split; [|split].
  - unfold exec. rewrite prepare_instance_filter_eq.
    unfold add_filters_ipv6. rewrite Hoff. by destruct (apply_accepted w).
  - unfold exec. rewrite unfilter_instance_eq.
    destruct (instances s !! instance_id instance); [|done].
    unfold remove_filters_ipv6. rewrite Hoff. by destruct (apply_accepted w).
  - destruct (exec_refresh_tables w security_group network_info s) as [_ ->].
    by rewrite refresh_tables_ipv6_off.
Qed.

Lemma ipv6_table_untouched_witness :
  use_ipv6 (Example.world [Example.rule_ssh]) = false
  ∧ ipv6_filter (iptables (Example.one_prepared (Example.world [Example.rule_ssh])))
    = ipv6_filter (iptables (exec IptablesFirewallDriver.__init__ Example.fresh)).
Proof.
  split; [reflexivity|].
  exact (proj1 (ipv6_table_untouched (Example.world [Example.rule_ssh])
                  Example.instance_1 1 None
                  (exec IptablesFirewallDriver.__init__ Example.fresh) eq_refl)).
Defined.

(** X16. After [__init__] every tracked instance is filed under its own id
    (none is tracked), and [prepare_instance_filter], [unfilter_instance]
    and [refresh_security_group_rules] keep it so. *)
Theorem tracked_by_id_kept (w : World) (instance : Instance) (security_group : Z)
    (network_info : option NetworkInfo) (s : State) :
  tracked_by_id (exec __init__ s)
  ∧ (tracked_by_id s →
     tracked_by_id (exec (prepare_instance_filter w instance network_info) s)
     ∧ tracked_by_id (exec (unfilter_instance w instance) s)
     ∧ tracked_by_id
         (exec (refresh_security_group_rules w security_group network_info) s)).
Proof.
  split.
  - intros key i. unfold exec. simpl. by rewrite lookup_empty.
  - unfold tracked_by_id, map_Forall. intros Hid. split; [|split]; intros key i.
    + unfold exec. rewrite prepare_instance_filter_eq.
      destruct (apply_accepted w); cbn [snd instances];
        (destruct (decide (instance_id instance = key)) as [<-|Hne];
         [rewrite lookup_insert_eq; by intros [= <-]
         |rewrite lookup_insert_ne by done; apply Hid]).
    + unfold exec. rewrite unfilter_instance_eq.
      destruct (instances s !! instance_id instance); [|apply Hid].
      destruct (apply_accepted w); cbn [snd instances];
        (destruct (decide (instance_id instance = key)) as [<-|Hne];
         [by rewrite lookup_delete_eq
         |rewrite lookup_delete_ne by done; apply Hid]).
    + unfold exec. rewrite refresh_security_group_rules_eq.
      destruct (apply_accepted w); apply Hid.
Qed.

Lemma tracked_by_id_kept_witness :
  tracked_by_id (Example.one_prepared (Example.world [Example.rule_ssh]))
  ∧ tracked_by_id (Example.two_prepared (Example.world [Example.rule_ssh])).
Proof.
  assert (tracked_by_id (Example.one_prepared (Example.world [Example.rule_ssh]))) as H
    by (apply (bool_decide_unpack _); vm_compute; exact I).
  split; [exact H|].
  exact (proj1 (proj2 (tracked_by_id_kept (Example.world [Example.rule_ssh])
                         Example.instance_2 1 None
                         (Example.one_prepared (Example.world [Example.rule_ssh])))
                 H)).
Defined.



End chain_tree.

(** ** Basic filtering *)

Section basic_filtering.
Import NWFilterBasic.

Lemma define_each_nil w s : define_each w [] s = (Ok tt, s).
Proof. unfold define_each. simpl. by rewrite defining_nil. Qed.

Lemma define_each_cons w xml xmls s :
  define_each w (xml :: xmls) s
  = if nwfilter_accepted w xml then define_each w xmls (defining [xml] s)
    else (Raise libvirtError, s).
Proof.
  unfold define_each. simpl. destruct (nwfilter_accepted w xml); simpl.
  - rewrite !defining_app. done.
  - by rewrite defining_nil.
Qed.

Lemma define_each_app w l1 l2 s :
  define_each w (l1 ++ l2) s
  = match define_each w l1 s with
    | (Ok _, s') => define_each w l2 s'
    | (Raise e, s') => (Raise e, s')
    end.
Proof.
  revert s. induction l1 as [|x l1 IH]; intros s.
  - by rewrite define_each_nil.
  - cbn [app]. rewrite !define_each_cons.
    destruct (nwfilter_accepted w x); [apply IH|done].
Qed.

Lemma runs_as_ret {A} w (a : A) : runs_as w (ret a) [] a.
Proof. intros s. by rewrite define_each_nil. Qed.

Lemma runs_as_define w xml :
  runs_as w (_define_filter w (Document xml)) [xml] tt.
Proof.
  intros s. rewrite define_each_cons. unfold _define_filter, nwfilterDefineXML.
  destruct (nwfilter_accepted w xml); [|done]. by rewrite define_each_nil.
Qed.

Lemma runs_as_define_method w f :
  runs_as w (_define_filter w (Method f)) [f tt] tt.
Proof. apply (runs_as_define w (f tt)). Qed.

Lemma runs_as_bind {A} w (m1 : M unit) (m2 : M A) l1 l2 a :
  runs_as w m1 l1 tt → runs_as w m2 l2 a → runs_as w (m1 ;; m2) (l1 ++ l2) a.
Proof.
  intros H1 H2 s. unfold bind. rewrite H1, define_each_app.
  destruct (define_each w l1 s) as [[[]|e] s']; [apply H2|done].
Qed.

Lemma runs_as_for_each {A} w (l : list A) (doc : A → string) :
  runs_as w (for_each l (fun x => _define_filter w (Document (doc x)))) (map doc l) tt.
Proof.
  induction l as [|x l IH]; simpl.
  - apply runs_as_ret.
  - apply (runs_as_bind w _ _ [doc x] (map doc l)); [apply runs_as_define|apply IH].
Qed.

Lemma ensure_static_filters_runs w self :
  static_filters_configured self = false →
  runs_as w (_ensure_static_filters w self) (static_documents w)
    {| static_filters_configured := true;
       handle_security_groups := handle_security_groups self |}.
Proof.
  intros Hflag. unfold _ensure_static_filters, static_documents. rewrite Hflag.
  repeat (apply (runs_as_bind w _ _ [_] _);
          [first [apply runs_as_define|apply runs_as_define_method]|]).
  destruct (allow_project_net_traffic w).
  - destruct (use_ipv6 w).
    + apply (runs_as_bind w _ _ [_; _] []); [|apply runs_as_ret].
      apply (runs_as_bind w _ _ [_] [_]); apply runs_as_define_method.
    + apply (runs_as_bind w _ _ [_] []); [|apply runs_as_ret].
      apply (runs_as_bind w _ _ [_] []); [apply runs_as_define_method|apply runs_as_ret].
  - apply (runs_as_bind w _ _ [] []); apply runs_as_ret.
Qed.

Lemma ensure_static_filters_result_holds (w : World) (self : Self) (s : State) :
  _ensure_static_filters w self s
  = if static_filters_configured self then (Ok self, s)
    else if forallb (nwfilter_accepted w) (static_documents w)
    then (Ok {| static_filters_configured := true;
                handle_security_groups := handle_security_groups self |},
          defining (static_documents w) s)
    else (Raise libvirtError, defining (accepted_prefix w (static_documents w)) s).
Proof.
  destruct (static_filters_configured self) eqn:Hflag.
  - unfold _ensure_static_filters. by rewrite Hflag.
  - rewrite (ensure_static_filters_runs w self Hflag s). unfold define_each.
    by destruct (forallb _ _).
Qed.

(** X7. [_ensure_static_filters] defines nothing on an object whose static
    filters are configured. Otherwise it defines the static filters in
    order and returns the object marked as configured; when libvirt rejects
    one of them it raises [libvirtError] with the filters before that one
    defined, and the object is not marked. *)
Theorem ensure_static_filters_result (w : World) (self : Self) (s : State) :
  _ensure_static_filters w self s
  = if static_filters_configured self then (Ok self, s)
    else if forallb (nwfilter_accepted w) (static_documents w)
    then (Ok {| static_filters_configured := true;
                handle_security_groups := handle_security_groups self |},
          defining (static_documents w) s)
    else (Raise libvirtError, defining (accepted_prefix w (static_documents w)) s).
Proof.
  destruct (static_filters_configured self) eqn:Hflag.
  - unfold _ensure_static_filters. by rewrite Hflag.
  - rewrite (ensure_static_filters_runs w self Hflag s). unfold define_each.
    by destruct (forallb _ _).
Qed.

Lemma for_each_basic_nic w instance network_info s :
  for_each network_info
    (fun nm =>
       let nic_id := remove_char ":" (mac nm.2) in
       let instance_filter_name :=
         NWFilterFirewall._instance_filter_name instance (Some nic_id) in
       _define_filter w
         (Document (NWFilterFirewall._filter_container instance_filter_name
                      [if String.eqb (instance_image_ref instance) (vpn_image_id w)
                       then "nova-vpn" else "nova-base"]))) s
  = define_each w (basic_nic_documents w instance network_info) s.
Proof.
  pose proof (runs_as_for_each w network_info
                (fun nm => NWFilterFirewall._filter_container (nic_filter_name instance nm)
                     [if String.eqb (instance_image_ref instance) (vpn_image_id w)
                      then "nova-vpn" else "nova-base"]) s) as H.
  unfold nic_filter_name in H. cbv zeta. rewrite H.
  unfold basic_nic_documents, nic_filter_name.
  by destruct (define_each _ _ _) as [[[]|e] s'].
Qed.

Lemma setup_basic_filtering_result_holds (w : World) (self : Self) (instance : Instance)
    (network_info : option NetworkInfo) (s : State) :
  handle_security_groups self = false →
  let static :=
    if static_filters_configured self then [] else static_documents w in
  let nics :=
    basic_nic_documents w instance (or_get_network_info w instance network_info) in
  let configured :=
    {| static_filters_configured := true; handle_security_groups := false |} in
  let logged :=
    logging ["called setup_basic_filtering in nwfilter"; "ensuring static filters"] s in
  setup_basic_filtering w self instance network_info s
  = if forallb (nwfilter_accepted w) static
    then if forallb (nwfilter_accepted w) nics
         then (Ok tt, configured, defining (static ++ nics) logged)
         else (Raise libvirtError, configured,
               defining (static ++ accepted_prefix w nics) logged)
    else (Raise libvirtError, self, defining (accepted_prefix w static) logged).
Proof.
  intros Hhandle static nics configured logged.
  unfold setup_basic_filtering. rewrite Hhandle.
  assert (exec (log "ensuring static filters")
            (exec (log "called setup_basic_filtering in nwfilter") s) = logged) as ->.
  { unfold logged, logging, exec, log. simpl. by rewrite <- app_assoc. }
  rewrite ensure_static_filters_result_holds. unfold static.
  destruct (static_filters_configured self) eqn:Hflag.
  - cbn [forallb]. rewrite for_each_basic_nic. fold nics. unfold define_each.
    assert (self = configured) as ->.
    { unfold configured. destruct self; simpl in *. by subst. }
    destruct (forallb _ nics); by rewrite ?defining_nil, ?app_nil_l.
  - rewrite Hhandle. fold configured.
    destruct (forallb _ (static_documents w)); [|done].
    rewrite for_each_basic_nic. fold nics. unfold define_each.
    destruct (forallb _ nics); by rewrite defining_app.
Qed.

(** X8. On an object that does not handle security groups,
    [setup_basic_filtering] logs its two lines, defines the static filters
    unless the object has them configured, and then one filter per NIC, which
    references the base filter only ([nova-vpn] when the image is the VPN
    image, [nova-base] otherwise). When a static filter is rejected it
    raises [libvirtError] and the object is as it was; when a NIC filter is
    rejected it raises with the object already marked as configured. *)
Theorem setup_basic_filtering_result (w : World) (self : Self) (instance : Instance)
    (network_info : option NetworkInfo) (s : State) :
  handle_security_groups self = false →
  let static :=
    if static_filters_configured self then [] else static_documents w in
  let nics :=
    basic_nic_documents w instance (or_get_network_info w instance network_info) in
  let configured :=
    {| static_filters_configured := true; handle_security_groups := false |} in
  let logged :=
    logging ["called setup_basic_filtering in nwfilter"; "ensuring static filters"] s in
  setup_basic_filtering w self instance network_info s
  = if forallb (nwfilter_accepted w) static
    then if forallb (nwfilter_accepted w) nics
         then (Ok tt, configured, defining (static ++ nics) logged)
         else (Raise libvirtError, configured,
               defining (static ++ accepted_prefix w nics) logged)
    else (Raise libvirtError, self, defining (accepted_prefix w static) logged).
Proof.
  intros Hhandle static nics configured logged.
  unfold setup_basic_filtering. rewrite Hhandle.
  assert (exec (log "ensuring static filters")
            (exec (log "called setup_basic_filtering in nwfilter") s) = logged) as ->.
  { unfold logged, logging, exec, log. simpl. by rewrite <- app_assoc. }
  rewrite ensure_static_filters_result_holds. unfold static.
  destruct (static_filters_configured self) eqn:Hflag.
  - cbn [forallb]. rewrite for_each_basic_nic. fold nics. unfold define_each.
    assert (self = configured) as ->.
    { unfold configured. destruct self; simpl in *. by subst. }
    destruct (forallb _ nics); by rewrite ?defining_nil, ?app_nil_l.
  - rewrite Hhandle. fold configured.
    destruct (forallb _ (static_documents w)); [|done].
    rewrite for_each_basic_nic. fold nics. unfold define_each.
    destruct (forallb _ nics); by rewrite defining_app.
Qed.

Lemma setup_basic_filtering_result_witness :
  NWFilterBasic.handle_security_groups NWFilterBasic.__init__ = false
  ∧ (NWFilterBasic.setup_basic_filtering (Example.world []) NWFilterBasic.__init__
       Example.instance_1 None Example.fresh).1
    = (Ok tt, {| NWFilterBasic.static_filters_configured := true;
                 NWFilterBasic.handle_security_groups := false |}).
Proof.
  split; [reflexivity|].
  rewrite (setup_basic_filtering_result (Example.world []) NWFilterBasic.__init__
             Example.instance_1 None Example.fresh eq_refl).
  reflexivity.
Defined.

(** X9. Two calls of [setup_basic_filtering], the first on a new object,
    with libvirt accepting every definition, define the static filters once:
    after the second call the definitions added are the static filters, the
    NIC filters of the first instance and those of the second. *)
Theorem setup_basic_filtering_twice (w : World) (instance1 instance2 : Instance)
    (s : State) :
  (∀ xml, nwfilter_accepted w xml = true) →
  let first := setup_basic_filtering w NWFilterBasic.__init__ instance1 None s in
  let second := setup_basic_filtering w first.1.2 instance2 None first.2 in
  second.1.1 = Ok tt
  ∧ static_filters_configured second.1.2 = true
  ∧ nwfilters second.2
    = nwfilters s ++ static_documents w
      ++ basic_nic_documents w instance1 (get_network_info w instance1)
      ++ basic_nic_documents w instance2 (get_network_info w instance2).
Proof.
  intros Hacc first second.
  assert (∀ l, forallb (nwfilter_accepted w) l = true) as Hall.
  { intros l. apply forallb_forall. intros x _. apply Hacc. }
  pose proof (setup_basic_filtering_result_holds w NWFilterBasic.__init__ instance1 None s
                eq_refl) as H1.
  cbv zeta in H1. cbn [static_filters_configured NWFilterBasic.__init__] in H1.
  rewrite !Hall in H1. fold first in H1.
  unfold second. rewrite H1. cbn [fst snd].
  match goal with |- context [setup_basic_filtering w ?self instance2 None ?s1] =>
    pose proof (setup_basic_filtering_result_holds w self instance2 None s1 eq_refl) as H2 end.
  cbv zeta in H2. cbn [static_filters_configured] in H2. rewrite !Hall in H2.
  rewrite H2. cbn [fst snd static_filters_configured].
  split; [done|]. split; [done|].
  unfold defining, logging. cbn [nwfilters]. by rewrite <- !app_assoc.
Qed.

Lemma setup_basic_filtering_twice_witness :
  length (nwfilters
     (NWFilterBasic.setup_basic_filtering (Example.world [])
        (NWFilterBasic.setup_basic_filtering (Example.world []) NWFilterBasic.__init__
           Example.instance_1 None Example.fresh).1.2
        Example.instance_2 None
        (NWFilterBasic.setup_basic_filtering (Example.world []) NWFilterBasic.__init__
           Example.instance_1 None Example.fresh).2).2) = 8%nat.
Proof.
  pose proof (setup_basic_filtering_twice (Example.world []) Example.instance_1
                Example.instance_2 Example.fresh (fun _ => eq_refl)) as (_ & _ & H).
  rewrite H. reflexivity.
Defined.

End basic_filtering.

(** ** The migration to utf8 *)

Lemma execute_each_result (engine : Migration076.Engine) (sqls executed : list string) :
  Migration076.execute_each engine sqls executed
  = if forallb (Migration076.accepts engine) sqls
    then (Migration076.Returned, executed ++ sqls)
    else (Migration076.Raised, executed ++ Migration076.accepted engine sqls).
Proof.
  revert executed. induction sqls as [|sql rest IH]; intros executed; simpl.
  - by rewrite app_nil_r.
  - unfold Migration076.execute. destruct (Migration076.accepts engine sql); simpl.
    + rewrite IH. destruct (forallb _ rest); by rewrite <- app_assoc.
    + by rewrite app_nil_r.
Qed.

Lemma upgrade_076_result_holds (engine : Migration076.Engine) (executed : list string) :
  Migration076.upgrade engine executed
  = if negb (String.eqb (Migration076.engine_name engine) "mysql")
    then (Migration076.Returned, executed)
    else if forallb (Migration076.accepts engine) Migration076.statements
    then (Migration076.Returned, executed ++ Migration076.statements)
    else (Migration076.Raised,
          executed ++ Migration076.accepted engine Migration076.statements).
Proof.
  unfold Migration076.upgrade.
  destruct (String.eqb _ _); [apply execute_each_result|done].
Qed.

(** X21. [upgrade] runs no statement on an engine that is not mysql. On
    mysql it runs its statements in order; at the first one that the engine
    rejects it raises, with the statements before that one run and none
    after it. *)
Theorem upgrade_076_result (engine : Migration076.Engine) (executed : list string) :
  Migration076.upgrade engine executed
  = if negb (String.eqb (Migration076.engine_name engine) "mysql")
    then (Migration076.Returned, executed)
    else if forallb (Migration076.accepts engine) Migration076.statements
    then (Migration076.Returned, executed ++ Migration076.statements)
    else (Migration076.Raised,
          executed ++ Migration076.accepted engine Migration076.statements).
Proof.
  unfold Migration076.upgrade.
  destruct (String.eqb _ _); [apply execute_each_result|done].
Qed.

Lemma accepted_prefix_split (engine : Migration076.Engine) (pre post : list string)
    (bad : string) :
  Forall (fun sql => Migration076.accepts engine sql = true) pre →
  Migration076.accepts engine bad = false →
  forallb (Migration076.accepts engine) (pre ++ bad :: post) = false
  ∧ Migration076.accepted engine (pre ++ bad :: post) = pre.
Proof.
  intros Hpre Hbad. induction Hpre as [|sql pre Hsql Hpre [IH1 IH2]]; simpl.
  - by rewrite Hbad.
  - by rewrite Hsql, IH1, IH2.
Qed.

Lemma foreign_key_checks_late :
  forallb (fun k => negb (bool_decide ("SET foreign_key_checks = 1"
                                       ∈ take k Migration076.statements)))
    (seq 0 50) = true.
Proof. vm_compute. reflexivity. Qed.

(** X22. When the mysql engine rejects a statement of [upgrade] other than
    the last one, [upgrade] raises having run exactly the statements before
    it, and [SET foreign_key_checks = 1] is not among them: a failure after
    the checks were switched off leaves them off. *)
Theorem upgrade_076_foreign_key_checks (engine : Migration076.Engine)
    (pre post : list string) (bad : string) :
  Migration076.engine_name engine = "mysql" →
  Migration076.statements = pre ++ bad :: post →
  Forall (fun sql => Migration076.accepts engine sql = true) pre →
  Migration076.accepts engine bad = false →
  post ≠ [] →
  Migration076.upgrade engine [] = (Migration076.Raised, pre)
  ∧ "SET foreign_key_checks = 1" ∉ pre.
Proof.
  intros Hname Hsplit Hpre Hbad Hpost. split.
  - rewrite upgrade_076_result_holds, Hname, Hsplit. simpl negb. cbv iota.
    by destruct (accepted_prefix_split engine pre post bad Hpre Hbad) as [-> ->].
  - assert (pre = take (length pre) Migration076.statements) as Htake.
    { by rewrite Hsplit, take_app_length. }
    assert (length pre < 50)%nat as Hlen.
    { assert (length Migration076.statements = 51%nat) as H51 by reflexivity.
      rewrite Hsplit, length_app in H51. simpl in H51.
      destruct post; [done|]. simpl in H51. lia. }
    pose proof foreign_key_checks_late as Hall.
    rewrite forallb_forall in Hall.
    specialize (Hall (length pre)). rewrite <- Htake in Hall.
    assert (In (length pre) (seq 0 50)) as Hin by (apply in_seq; lia).
    apply Hall in Hin. apply negb_true_iff, bool_decide_eq_false in Hin. done.
Qed.

Lemma upgrade_076_foreign_key_checks_witness :
  Migration076.accepts Example2.engine_without_zones
    "ALTER TABLE zones CONVERT TO CHARACTER SET utf8" = false
  ∧ (Migration076.upgrade Example2.engine_without_zones []).1 = Migration076.Raised
  ∧ "SET foreign_key_checks = 1" ∉ (Migration076.upgrade Example2.engine_without_zones []).2.
Proof.
  split; [reflexivity|].
  destruct (upgrade_076_foreign_key_checks Example2.engine_without_zones
              (take 48 Migration076.statements)
              (drop 49 Migration076.statements)
              "ALTER TABLE zones CONVERT TO CHARACTER SET utf8"
              eq_refl eq_refl) as [H1 H2].
  - vm_compute. repeat constructor.
  - reflexivity.
  - discriminate.
  - rewrite H1. split; [reflexivity|exact H2].
Defined.
